(** * Empathy Engine: emotion detection and voice-parameter scaling

    A shallow embedding of the core of [empathy_engine.py]: the classes
    [EmotionDetector] (intensity estimation, lexical fallback, classifier
    call with its exception handler) and [EmpathyEngine] (the emotion to
    voice-parameter table and the intensity scaling).

    Conventions of the embedding.
    - Python [float] values are read as exact rationals ([Q]); every
      arithmetic step of the source is kept, its rounding error is not
      modelled.  Python [int] values are [Z].  Module [B64] embeds the
      two numeric functions a second time over binary64 doubles (the
      kernel's primitive floats), with the rounding of every operation;
      the statements that depend on rounding are made there.
    - A Python [str] is a [string] whose characters are the code points
      U+0000 to U+00FF; [str.lower] and [str.isupper] are the Unicode ones
      restricted to that range.
    - A Python exception is a value [Raise e] of the result type [res];
      [try]/[except Exception] is [try_except].
    - [print] calls are not modelled. *)

From Stdlib Require Import QArith Qround Qabs Qminmax Lqa ZArith Lia.
From Stdlib Require Import String Ascii List.
From Stdlib Require Import Decimal DecimalString DecimalZ.
From Stdlib Require Import Floats.
From Stdlib Require Import Permutation.
From stdpp Require Import gmap strings.
Import ListNotations.

Set Warnings "-register-all,-inexact-float".

Local Open Scope Z_scope.
Local Open Scope Q_scope.
Local Open Scope string_scope.

(** ** Python numbers *)

Module Py.

(** [a < b] on floats. *)
Definition ltb (a b : Q) : bool := (Qnum a * QDen b <? Qnum b * QDen a)%Z.

(** Built-in [min(a, b)]: the second argument is taken only when it is
    strictly smaller. *)
Definition min (a b : Q) : Q := if ltb b a then b else a.

(** Built-in [max(a, b)]: the second argument is taken only when it is
    strictly greater. *)
Definition max (a b : Q) : Q := if ltb a b then b else a.

(** [min] and [max] on [int] arguments. *)
Definition imin (a b : Z) : Z := if (b <? a)%Z then b else a.
Definition imax (a b : Z) : Z := if (a <? b)%Z then b else a.

(** [int(x)] on a float: truncation toward zero. *)
Definition int (x : Q) : Z := (Qnum x ÷ Zpos (Qden x))%Z.

(** Exceptions raised by the modelled code. *)
Inductive exn : Set :=
| KeyError | IndexError | TypeError | AttributeError | ZeroDivisionError
| ClassifierError.

Inductive res (A : Type) : Type :=
| Ok (a : A)
| Raise (e : exn).
Arguments Ok {A} a.
Arguments Raise {A} e.

Definition bind {A B : Type} (m : res A) (k : A -> res B) : res B :=
  match m with
  | Ok a => k a
  | Raise e => Raise e
  end.

(** [try: body except Exception: pass] followed by [handler]. *)
Definition try_except {A : Type} (body : res A) (handler : res A) : res A :=
  match body with
  | Ok a => Ok a
  | Raise _ => handler
  end.

(** True division [a / b] of two ints. *)
Definition truediv (a b : Z) : res Q :=
  if (b =? 0)%Z then Raise ZeroDivisionError else Ok (inject_Z a / inject_Z b).

(** [d[k]] on a dict. *)
Definition getitem {V : Type} (d : gmap string V) (k : string) : res V :=
  match d !! k with
  | Some v => Ok v
  | None => Raise KeyError
  end.

(** [d.get(k, dflt)] on a dict. *)
Definition get {V : Type} (d : gmap string V) (k : string) (dflt : V) : V :=
  match d !! k with
  | Some v => v
  | None => dflt
  end.

(** A dict display [{k1: v1, ..., kn: vn}]: the items are inserted from
    left to right. *)
Definition dict {V : Type} (items : list (string * V)) : gmap string V :=
  fold_left (fun d kv => <[fst kv := snd kv]> d) items ∅.

End Py.

Notation "x <- c1 ;; c2" := (Py.bind c1 (fun x => c2))
  (at level 100, c1 at next level, c2 at level 200, right associativity).

(** ** Python strings *)

Module Str.

Definition code (c : ascii) : N := N_of_ascii c.

(** [c.isupper()] for one character: the category Lu below U+0100, that
    is A-Z, U+00C0-U+00D6 and U+00D8-U+00DE. *)
Definition isupper (c : ascii) : bool :=
  let n := code c in
  ((65 <=? n) && (n <=? 90) || (192 <=? n) && (n <=? 214)
   || (216 <=? n) && (n <=? 222))%N.

(** Lower-casing of one character: the upper-case letters are 32 below
    their lower-case forms. *)
Definition lower_char (c : ascii) : ascii :=
  if isupper c then ascii_of_N (code c + 32) else c.

(** [s.lower()]. *)
Fixpoint lower (s : string) : string :=
  match s with
  | EmptyString => EmptyString
  | String c s' => String (lower_char c) (lower s')
  end.

(** [len(s)]. *)
Definition len (s : string) : Z := Z.of_nat (String.length s).

(** [sum(1 for c in s if c.isupper())]. *)
Fixpoint count_upper (s : string) : Z :=
  match s with
  | EmptyString => 0
  | String c s' => ((if isupper c then 1 else 0) + count_upper s')%Z
  end.

(** [sub in s]: [sub] starts at some position of [s]. *)
Fixpoint contains (sub s : string) : bool :=
  String.prefix sub s ||
  match s with
  | EmptyString => false
  | String _ s' => contains sub s'
  end.

(** [c.isspace()] for one character below U+0100: the characters removed
    by [str.strip()]. *)
Definition isspace (c : ascii) : bool :=
  let n := code c in
  ((9 <=? n) && (n <=? 13) || (28 <=? n) && (n <=? 32)
   || (n =? 133) || (n =? 160))%N.

(** [s.lstrip()]. *)
Fixpoint lstrip (s : string) : string :=
  match s with
  | EmptyString => EmptyString
  | String c s' => if isspace c then lstrip s' else s
  end.

(** [s.rstrip()]. *)
Fixpoint rstrip (s : string) : string :=
  match s with
  | EmptyString => EmptyString
  | String c s' =>
      match rstrip s' with
      | EmptyString => if isspace c then EmptyString else String c EmptyString
      | r => String c r
      end
  end.

(** [s.strip()]. *)
Definition strip (s : string) : string := rstrip (lstrip s).

(** [str(n)] for an int. *)
Definition of_int (n : Z) : string := NilEmpty.string_of_int (Z.to_int n).

End Str.

(** ** Data classes *)

Record VoiceParameters : Type := mkVoiceParameters {
  rate : Z;
  pitch : Q;
  volume : Q;
  emphasis : string
}.

Record EmotionResult : Type := mkEmotionResult {
  emotion : string;
  confidence : Q;
  intensity : Q
}.

(** Attribute assignments [p.rate = v], [p.pitch = v], [p.volume = v]. *)
Definition set_rate (p : VoiceParameters) (v : Z) : VoiceParameters :=
  mkVoiceParameters v (pitch p) (volume p) (emphasis p).
Definition set_pitch (p : VoiceParameters) (v : Q) : VoiceParameters :=
  mkVoiceParameters (rate p) v (volume p) (emphasis p).
Definition set_volume (p : VoiceParameters) (v : Q) : VoiceParameters :=
  mkVoiceParameters (rate p) (pitch p) v (emphasis p).

(** ** EmpathyEngine._apply_intensity_scaling *)

(** The float handed to [int] for the rate. *)
Definition raw_rate (base_params : VoiceParameters) (intensity : Q) : Q :=
  inject_Z (rate base_params)
  + inject_Z (rate base_params - 200) * intensity * 0.5.

Definition _apply_intensity_scaling
    (base_params : VoiceParameters) (intensity : Q) : VoiceParameters :=
  let scaled_params :=
    mkVoiceParameters
      (Py.int (raw_rate base_params intensity))
      (pitch base_params * (1 + intensity * 0.5))
      (Py.min 1.0 (volume base_params + (intensity - 0.5) * 0.2))
      (if Py.ltb 0.6 intensity then emphasis base_params else "none") in
  let scaled_params :=
    set_rate scaled_params (Py.imax 100 (Py.imin 300 (rate scaled_params))) in
  let scaled_params :=
    set_pitch scaled_params (Py.max (-50) (Py.min 50 (pitch scaled_params))) in
  let scaled_params :=
    set_volume scaled_params (Py.max 0.1 (Py.min 1.0 (volume scaled_params))) in
  scaled_params.

(** ** EmotionDetector._calculate_intensity *)

(** The lists held by the local dict [intensity_markers]. *)
Definition high_markers : list string :=
  ["!!!"; "amazing"; "incredible"; "fantastic"; "terrible"; "awful";
   "furious"; "ecstatic"].
Definition medium_markers : list string :=
  ["!"; "great"; "good"; "bad"; "upset"; "happy"; "sad"].
Definition low_markers : list string := ["."; "okay"; "fine"; "alright"].

(** A dict with the three keys of [intensity_markers]. *)
Definition markers_dict (high medium low : list string)
    : gmap string (list string) :=
  Py.dict [("high", high); ("medium", medium); ("low", low)].

Definition intensity_markers : gmap string (list string) :=
  markers_dict high_markers medium_markers low_markers.

(** One iteration of a marker loop:
    [if marker in text_lower: intensity_score = min(1.0, intensity_score + inc)]. *)
Definition marker_step (text_lower : string) (inc : Q)
    (intensity_score : Q) (marker : string) : Q :=
  if Str.contains marker text_lower
  then Py.min 1.0 (intensity_score + inc)
  else intensity_score.

(** The body of [_calculate_intensity] over a given marker dict. *)
Definition _calculate_intensity_with (markers : gmap string (list string))
    (text : string) (base_confidence : Q) : Py.res Q :=
  let text_lower := Str.lower text in
  let intensity_score := base_confidence in
  high <- Py.getitem markers "high" ;;
  let intensity_score :=
    fold_left (marker_step text_lower 0.3) high intensity_score in
  medium <- Py.getitem markers "medium" ;;
  let intensity_score :=
    fold_left (marker_step text_lower 0.1) medium intensity_score in
  caps_ratio <- Py.truediv (Str.count_upper text) (Py.imax 1 (Str.len text)) ;;
  let intensity_score :=
    if Py.ltb 0.3 caps_ratio
    then Py.min 1.0 (intensity_score + 0.2)
    else intensity_score in
  Py.Ok (Py.max 0.1 (Py.min 1.0 intensity_score)).

Definition _calculate_intensity (text : string) (base_confidence : Q)
    : Py.res Q :=
  _calculate_intensity_with intensity_markers text base_confidence.

(** ** EmotionDetector._basic_sentiment_analysis *)

Definition positive_words : list string :=
  ["good"; "great"; "excellent"; "amazing"; "wonderful"; "fantastic";
   "love"; "happy"].

Definition negative_words : list string :=
  ["bad"; "terrible"; "awful"; "hate"; "sad"; "angry"; "frustrated";
   "annoying"].

(** [sum(1 for word in words if word in text_lower)]. *)
Definition sum_ones_if (cond : string -> bool) (words : list string) : Z :=
  fold_left (fun acc word => if cond word then (acc + 1)%Z else acc) words 0%Z.

Definition _basic_sentiment_analysis (text : string) : EmotionResult :=
  let text_lower := Str.lower text in
  let pos_count :=
    sum_ones_if (fun word => Str.contains word text_lower) positive_words in
  let neg_count :=
    sum_ones_if (fun word => Str.contains word text_lower) negative_words in
  if (neg_count <? pos_count)%Z then mkEmotionResult "happy" 0.7 0.6
  else if (pos_count <? neg_count)%Z then mkEmotionResult "angry" 0.7 0.6
  else mkEmotionResult "neutral" 0.8 0.3.

(** ** EmotionDetector.__init__ and detect_emotion *)

(** The values a classifier call can hand back: JSON-like Python values
    (dict keys are strings). *)
Inductive pyval : Type :=
| PNone
| PNum (q : Q)
| PStr (s : string)
| PList (items : list pyval)
| PDict (items : list (string * pyval)).

(** [v[0]]. *)
Definition subscript0 (v : pyval) : Py.res pyval :=
  match v with
  | PList [] => Py.Raise Py.IndexError
  | PList (x :: _) => Py.Ok x
  | PStr EmptyString => Py.Raise Py.IndexError
  | PStr (String c _) => Py.Ok (PStr (String c EmptyString))
  | PDict _ => Py.Raise Py.KeyError
  | PNone | PNum _ => Py.Raise Py.TypeError
  end.

Fixpoint assoc (k : string) (items : list (string * pyval)) : option pyval :=
  match items with
  | [] => None
  | (k', v) :: rest => if String.eqb k' k then Some v else assoc k rest
  end.

(** [v[key]] for a string key. *)
Definition subscript (v : pyval) (key : string) : Py.res pyval :=
  match v with
  | PDict items =>
      match assoc key items with
      | Some x => Py.Ok x
      | None => Py.Raise Py.KeyError
      end
  | _ => Py.Raise Py.TypeError
  end.

(** [v.lower()]. *)
Definition call_lower (v : pyval) : Py.res string :=
  match v with
  | PStr s => Py.Ok (Str.lower s)
  | _ => Py.Raise Py.AttributeError
  end.

(** A loaded classifier: a call either raises or returns a value. *)
Definition classifier_fn : Type := string -> Py.res pyval.

(** The instance attributes of [EmotionDetector]; [emotions_map] is [None]
    when the attribute was never assigned. *)
Record EmotionDetector : Type := mkEmotionDetector {
  classifier : option classifier_fn;
  emotions_map : option (gmap string string)
}.

Definition emotions_map_literal : gmap string string :=
  Py.dict
    [ ("joy", "happy"); ("sadness", "sad"); ("anger", "angry");
      ("fear", "worried"); ("surprise", "surprised");
      ("disgust", "disgusted"); ("neutral", "neutral") ].

(** [__init__]: [load] is the outcome of the [pipeline(...)] call. *)
Definition __init__ (load : Py.res classifier_fn) : EmotionDetector :=
  match load with
  | Py.Ok clf => mkEmotionDetector (Some clf) (Some emotions_map_literal)
  | Py.Raise _ => mkEmotionDetector None None
  end.

(** [self.emotions_map]. *)
Definition getattr_emotions_map (self : EmotionDetector)
    : Py.res (gmap string string) :=
  match emotions_map self with
  | Some m => Py.Ok m
  | None => Py.Raise Py.AttributeError
  end.

(** The body of the [try] block of [detect_emotion].  A [score] that is not
    a number makes the arithmetic and comparisons of
    [_calculate_intensity] raise [TypeError]. *)
Definition detect_emotion_try (self : EmotionDetector) (clf : classifier_fn)
    (text : string) : Py.res EmotionResult :=
  result <- clf text ;;
  first <- subscript0 result ;;
  label <- subscript first "label" ;;
  emotion_raw <- call_lower label ;;
  first <- subscript0 result ;;
  score <- subscript first "score" ;;
  emap <- getattr_emotions_map self ;;
  let emotion := Py.get emap emotion_raw "neutral" in
  match score with
  | PNum confidence =>
      intensity <- _calculate_intensity text confidence ;;
      Py.Ok (mkEmotionResult emotion confidence intensity)
  | _ => Py.Raise Py.TypeError
  end.

Definition detect_emotion (self : EmotionDetector) (text : string)
    : Py.res EmotionResult :=
  match classifier self with
  | Some clf =>
      Py.try_except (detect_emotion_try self clf text)
                    (Py.Ok (_basic_sentiment_analysis text))
  | None => Py.Ok (_basic_sentiment_analysis text)
  end.

(** ** EmpathyEngine *)

(** The items of the dict display returned by [_initialize_voice_mappings]. *)
Definition voice_items : list (string * VoiceParameters) :=
  [ ("happy", mkVoiceParameters 220 10 0.95 "strong");
    ("excited", mkVoiceParameters 240 15 1.0 "strong");
    ("sad", mkVoiceParameters 160 (-10) 0.7 "none");
    ("angry", mkVoiceParameters 200 5 0.9 "strong");
    ("worried", mkVoiceParameters 180 (-5) 0.8 "moderate");
    ("surprised", mkVoiceParameters 210 12 0.9 "strong");
    ("disgusted", mkVoiceParameters 170 (-8) 0.8 "none");
    ("neutral", mkVoiceParameters 200 0 0.85 "none") ].

Definition _initialize_voice_mappings : gmap string VoiceParameters :=
  Py.dict voice_items.

(** Step 2 of [process_text]:
    [self.voice_mappings.get(emotion, self.voice_mappings['neutral'])]; the
    default is evaluated before the call. *)
Definition base_params_for (voice_mappings : gmap string VoiceParameters)
    (emotion : string) : Py.res VoiceParameters :=
  dflt <- Py.getitem voice_mappings "neutral" ;;
  Py.Ok (Py.get voice_mappings emotion dflt).

(** Steps 1 to 3 of [process_text]; the audio step is outside the model. *)
Definition process_text (detector : EmotionDetector) (text : string)
    : Py.res (EmotionResult * VoiceParameters) :=
  emotion_result <- detect_emotion detector text ;;
  base_params <-
    base_params_for _initialize_voice_mappings (emotion emotion_result) ;;
  let adjusted_params :=
    _apply_intensity_scaling base_params (intensity emotion_result) in
  Py.Ok (emotion_result, adjusted_params).

(** ** EmpathyEngine._generate_audio *)

Module Tts.

(** The calls made on the speech engine and on [tempfile]. *)
Inductive call : Type :=
| Init                               (* pyttsx3.init() *)
| SetRate (r : Z)                    (* engine.setProperty('rate', r) *)
| SetVolume (v : Q)                  (* engine.setProperty('volume', v) *)
| GetVoices                          (* engine.getProperty('voices') *)
| SetVoice (id : string)             (* engine.setProperty('voice', id) *)
| NamedTemporaryFile                 (* tempfile.NamedTemporaryFile(...) *)
| CloseFile (name : string)          (* temp_file.close() *)
| SaveToFile (text name : string)    (* engine.save_to_file(text, name) *)
| RunAndWait                         (* engine.runAndWait() *)
| Stop.                              (* engine.stop() *)

(** What a run does, in order: the lock operations and the calls. *)
Inductive event : Type :=
| Acquire
| Release
| Call (c : call).

(** The environment of a run: which calls raise, the ids of the installed
    voices and the name given to the temporary file. *)
Record backend : Type := mkBackend {
  raises : call -> bool;
  voices : list string;
  temp_name : string
}.

(** The exceptions of this part of the code: one raised by a call, the
    [Exception("Failed to generate audio: ...")] of [_generate_audio], or
    one of the exceptions of the detection code. *)
Inductive failure : Type :=
| CallError (c : call)
| AudioFailed (cause : failure)
| Builtin (e : Py.exn).

Inductive outcome (A : Type) : Type :=
| Returned (a : A)
| Raised (f : failure).
Arguments Returned {A} a.
Arguments Raised {A} f.

(** A computation: the events it emits and how it ends. *)
Definition run (A : Type) : Type := list event * outcome A.

Definition ret {A : Type} (a : A) : run A := ([], Returned a).

Definition raise {A : Type} (f : failure) : run A := ([], Raised f).

Definition bind {A B : Type} (m : run A) (k : A -> run B) : run B :=
  match snd m with
  | Returned a => ((fst m ++ fst (k a))%list, snd (k a))
  | Raised f => (fst m, Raised f)
  end.

(** One call on the environment. *)
Definition do_call (bk : backend) (c : call) : run unit :=
  ([Call c], if raises bk c then Raised (CallError c) else Returned tt).

(** [try: body except Exception as e: handler(e)]. *)
Definition try_except {A : Type} (body : run A) (handler : failure -> run A)
    : run A :=
  match snd body with
  | Returned a => body
  | Raised f => ((fst body ++ fst (handler f))%list, snd (handler f))
  end.

(** [with lock: body]: the lock is released however the body ends. *)
Definition with_lock {A : Type} (body : run A) : run A :=
  ((Acquire :: fst body ++ [Release])%list, snd body).

End Tts.

Notation "x <~ c1 ;; c2" := (Tts.bind c1 (fun x => c2))
  (at level 100, c1 at next level, c2 at level 200, right associativity).

Definition _generate_audio (bk : Tts.backend) (text : string)
    (params : VoiceParameters) : Tts.run string :=
  Tts.with_lock
    (Tts.try_except
       (_ <~ Tts.do_call bk Tts.Init ;;
        _ <~ Tts.do_call bk (Tts.SetRate (rate params)) ;;
        _ <~ Tts.do_call bk (Tts.SetVolume (volume params)) ;;
        _ <~ Tts.try_except
               (_ <~ Tts.do_call bk Tts.GetVoices ;;
                match Tts.voices bk with
                | first :: _ => Tts.do_call bk (Tts.SetVoice first)
                | [] => Tts.ret tt
                end)
               (fun _ => Tts.ret tt) ;;
        _ <~ Tts.do_call bk Tts.NamedTemporaryFile ;;
        let name := Tts.temp_name bk in
        _ <~ Tts.do_call bk (Tts.CloseFile name) ;;
        _ <~ Tts.do_call bk (Tts.SaveToFile text name) ;;
        _ <~ Tts.do_call bk Tts.RunAndWait ;;
        _ <~ Tts.do_call bk Tts.Stop ;;
        Tts.ret name)
       (fun e => Tts.raise (Tts.AudioFailed e))).

(** [process_text] with its step 4. *)
Definition process_text_audio (bk : Tts.backend) (detector : EmotionDetector)
    (text : string) : Tts.run (EmotionResult * VoiceParameters * string) :=
  match process_text detector text with
  | Py.Ok (emotion_result, adjusted_params) =>
      audio_path <~ _generate_audio bk text adjusted_params ;;
      Tts.ret (emotion_result, adjusted_params, audio_path)
  | Py.Raise e => Tts.raise (Tts.Builtin e)
  end.

(** ** The web routes *)

(** What a route returns; the text of an error message is not modelled. *)
Inductive response : Type :=
| Result (payload : pyval)          (* jsonify({...}), status 200 *)
| NoText                            (* {'error': 'No text provided'}, 400 *)
| ServerError (cause : Tts.failure) (* {'error': str(e)}, 500 *)
| AudioFile (path : string)         (* send_file(path), status 200 *)
| AudioNotFound                     (* "Audio not found", 404 *)
| AudioError.                       (* "Error serving audio: ...", 500 *)

Definition status (r : response) : Z :=
  match r with
  | Result _ | AudioFile _ => 200
  | NoText => 400
  | AudioNotFound => 404
  | ServerError _ | AudioError => 500
  end.

(** [data.get('text', '').strip()] on the parsed request body. *)
Definition request_text (data : pyval) : Py.res string :=
  match data with
  | PDict items =>
      match assoc "text" items with
      | Some (PStr s) => Py.Ok (Str.strip s)
      | Some _ => Py.Raise Py.AttributeError
      | None => Py.Ok (Str.strip "")
      end
  | _ => Py.Raise Py.AttributeError
  end.

(** The key [f'audio_{audio_id}'] of [app.config]. *)
Definition audio_key (audio_id : string) : string := "audio_" ++ audio_id.

(** The dict handed to [jsonify] on success. *)
Definition result_payload (emotion_result : EmotionResult)
    (voice_params : VoiceParameters) (audio_id : string) : pyval :=
  PDict
    [ ("emotion",
       PDict [ ("emotion", PStr (emotion emotion_result));
               ("confidence", PNum (confidence emotion_result));
               ("intensity", PNum (intensity emotion_result)) ]);
      ("voice_params",
       PDict [ ("rate", PNum (inject_Z (rate voice_params)));
               ("pitch", PNum (pitch voice_params));
               ("volume", PNum (volume voice_params));
               ("emphasis", PStr (emphasis voice_params)) ]);
      ("audio_id", PStr audio_id) ].

(** The route [/process]: [get_json] is the outcome of
    [request.get_json()], [now] the value of [time.time()], [config] the
    audio entries of [app.config].  Returns the events, the new
    [app.config] and the response. *)
Definition process_text_route (bk : Tts.backend) (detector : EmotionDetector)
    (now : Q) (config : gmap string string) (get_json : Py.res pyval)
    : list Tts.event * gmap string string * response :=
  match (data <- get_json ;; request_text data) with
  | Py.Raise e => ([], config, ServerError (Tts.Builtin e))
  | Py.Ok text =>
      if String.eqb text "" then ([], config, NoText)
      else
        match process_text_audio bk detector text with
        | (events, Tts.Raised f) => (events, config, ServerError f)
        | (events, Tts.Returned (emotion_result, voice_params, audio_path)) =>
            let audio_id := Str.of_int (Py.int (now * 1000)) in
            (events, <[audio_key audio_id := audio_path]> config,
             Result (result_payload emotion_result voice_params audio_id))
        end
  end.

(** The file system as [get_audio] sees it. *)
Record filesystem : Type := mkFilesystem {
  path_exists : string -> bool;
  send_file_raises : string -> bool
}.

(** The route [/audio/<audio_id>]. *)
Definition get_audio (fs : filesystem) (config : gmap string string)
    (audio_id : string) : response :=
  match config !! audio_key audio_id with
  | Some audio_path =>
      if negb (String.eqb audio_path "") && path_exists fs audio_path
      then if send_file_raises fs audio_path then AudioError
           else AudioFile audio_path
      else AudioNotFound
  | None => AudioNotFound
  end.

(** ** The command line loop *)

(** What [input()] does at one prompt. *)
Inductive cli_input : Type :=
| Line (s : string)
| KeyboardInterrupt.

(** What one turn of the loop prints. *)
Inductive cli_output : Type :=
| Goodbye
| PleaseEnterText
| Report (emotion_result : EmotionResult) (voice_params : VoiceParameters)
         (audio_path : string)
| ErrorMessage (cause : Tts.failure).

Definition quit_words : list string := ["quit"; "exit"; "q"].

(** [cli_interface] over the inputs that are available: the events, what
    is printed, and whether the loop has ended ([false]: it waits at the
    prompt). *)
Fixpoint cli_interface (bk : Tts.backend) (detector : EmotionDetector)
    (inputs : list cli_input) : list Tts.event * list cli_output * bool :=
  match inputs with
  | [] => ([], [], false)
  | KeyboardInterrupt :: _ => ([], [Goodbye], true)
  | Line s :: rest =>
      let text := Str.strip s in
      if existsb (String.eqb (Str.lower text)) quit_words
      then ([], [Goodbye], true)
      else
        let '(events', printed', ended) := cli_interface bk detector rest in
        if String.eqb text "" then (events', PleaseEnterText :: printed', ended)
        else
          match process_text_audio bk detector text with
          | (events, Tts.Returned (emotion_result, voice_params, audio_path)) =>
              ((events ++ events')%list,
               Report emotion_result voice_params audio_path :: printed',
               ended)
          | (events, Tts.Raised f) =>
              ((events ++ events')%list, ErrorMessage f :: printed', ended)
          end
  end.

(** ** The numeric functions over binary64 doubles *)

Module B64.

Local Open Scope float_scope.

(** [float(n)] for an int below 2^63 in absolute value (exact up to 2^53). *)
Definition of_int (n : Z) : float :=
  if (n <? 0)%Z then - of_uint63 (Uint63.of_Z (- n))
  else of_uint63 (Uint63.of_Z n).

(** The exact value of a finite double, as a reduced fraction; [None] for
    an infinity or a NaN. *)
Definition value (x : float) : option Q :=
  match Prim2SF x with
  | S754_zero _ => Some 0%Q
  | S754_finite s m e =>
      Some (Qred (inject_Z (if s then Z.neg m else Z.pos m) * 2 ^ e))%Q
  | S754_infinity _ | S754_nan => None
  end.

(** [int(x)]: truncation toward zero; [None] when Python raises
    ([OverflowError] on an infinity, [ValueError] on a NaN). *)
Definition int (x : float) : option Z := option_map Py.int (value x).

(** Built-in [min(a, b)] and [max(a, b)]. *)
Definition min (a b : float) : float := if b <? a then b else a.
Definition max (a b : float) : float := if a <? b then b else a.

(** True division [a / b] of two ints below 2^53. *)
Definition truediv (a b : Z) : Py.res float :=
  if (b =? 0)%Z then Py.Raise Py.ZeroDivisionError
  else Py.Ok (of_int a / of_int b).

Record VoiceParameters : Type := mkVoiceParameters {
  rate : Z;
  pitch : float;
  volume : float;
  emphasis : string
}.

Definition set_rate (p : VoiceParameters) (v : Z) : VoiceParameters :=
  mkVoiceParameters v (pitch p) (volume p) (emphasis p).
Definition set_pitch (p : VoiceParameters) (v : float) : VoiceParameters :=
  mkVoiceParameters (rate p) v (volume p) (emphasis p).
Definition set_volume (p : VoiceParameters) (v : float) : VoiceParameters :=
  mkVoiceParameters (rate p) (pitch p) v (emphasis p).

(** The double handed to [int] for the rate. *)
Definition raw_rate (base_params : VoiceParameters) (intensity : float)
    : float :=
  of_int (rate base_params)
  + of_int (rate base_params - 200) * intensity * 0.5.

(** [EmpathyEngine._apply_intensity_scaling]; [None] when [int] raises. *)
Definition _apply_intensity_scaling
    (base_params : VoiceParameters) (intensity : float)
    : option VoiceParameters :=
  match int (raw_rate base_params intensity) with
  | None => None
  | Some r =>
      let scaled_params :=
        mkVoiceParameters
          r
          (pitch base_params * (1 + intensity * 0.5))
          (min 1.0 (volume base_params + (intensity - 0.5) * 0.2))
          (if 0.6 <? intensity then emphasis base_params else "none") in
      let scaled_params :=
        set_rate scaled_params
          (Py.imax 100 (Py.imin 300 (rate scaled_params))) in
      let scaled_params :=
        set_pitch scaled_params (max (-50) (min 50 (pitch scaled_params))) in
      let scaled_params :=
        set_volume scaled_params
          (max 0.1 (min 1.0 (volume scaled_params))) in
      Some scaled_params
  end.

(** One iteration of a marker loop of [_calculate_intensity]. *)
Definition marker_step (text_lower : string) (inc : float)
    (intensity_score : float) (marker : string) : float :=
  if Str.contains marker text_lower
  then min 1.0 (intensity_score + inc)
  else intensity_score.

(** The body of [EmotionDetector._calculate_intensity] over a marker dict. *)
Definition _calculate_intensity_with (markers : gmap string (list string))
    (text : string) (base_confidence : float) : Py.res float :=
  let text_lower := Str.lower text in
  let intensity_score := base_confidence in
  high <- Py.getitem markers "high" ;;
  let intensity_score :=
    fold_left (marker_step text_lower 0.3) high intensity_score in
  medium <- Py.getitem markers "medium" ;;
  let intensity_score :=
    fold_left (marker_step text_lower 0.1) medium intensity_score in
  caps_ratio <- truediv (Str.count_upper text) (Py.imax 1 (Str.len text)) ;;
  let intensity_score :=
    if 0.3 <? caps_ratio
    then min 1.0 (intensity_score + 0.2)
    else intensity_score in
  Py.Ok (max 0.1 (min 1.0 intensity_score)).

Definition _calculate_intensity (text : string) (base_confidence : float)
    : Py.res float :=
  _calculate_intensity_with intensity_markers text base_confidence.

End B64.

(** ** Vocabulary of the specification *)

(** The bounds of a [VoiceParameters] value. *)
Definition valid_emphasis (e : string) : Prop :=
  e = "none" \/ e = "moderate" \/ e = "strong".

Definition in_bounds (p : VoiceParameters) : Prop :=
  (100 <= rate p <= 300)%Z /\ -50 <= pitch p <= 50 /\
  0.1 <= volume p <= 1.0 /\ valid_emphasis (emphasis p).

(** The table entry of "surprised". *)
Definition surprised_params : VoiceParameters :=
  mkVoiceParameters 210 12 0.9 "strong".

(** [z] is an integer nearest to [x]. *)
Definition nearest_integer (z : Z) (x : Q) : Prop :=
  Qabs (inject_Z z - x) <= 1 # 2.

(** [z] is [x] with its fractional part dropped. *)
Definition truncation (z : Z) (x : Q) : Prop :=
  (0 <= x -> inject_Z z <= x < inject_Z z + 1) /\
  (x <= 0 -> inject_Z z - 1 < x <= inject_Z z).

(** The markers of a list that are substrings of the lower-cased text. *)
Definition matched (text : string) (markers : list string) : list string :=
  List.filter (fun marker => Str.contains marker (Str.lower text)) markers.

Definition matched_count (text : string) (markers : list string) : Z :=
  Z.of_nat (length (matched text markers)).

(** The share of upper-case letters, with the guarded denominator. *)
Definition caps_ratio (text : string) : Q :=
  inject_Z (Str.count_upper text) / inject_Z (Z.max 1 (Str.len text)).

Definition shouting (text : string) : bool := Py.ltb 0.3 (caps_ratio text).

(** The score after the two marker loops and the caps check. *)
Definition final_score (h m : list string) (text : string) (c : Q) : Q :=
  let s := fold_left (marker_step (Str.lower text) 0.3) h c in
  let s := fold_left (marker_step (Str.lower text) 0.1) m s in
  if shouting text then Py.min 1.0 (s + 0.2) else s.

(** The closed form of the intensity estimate. *)
Definition intensity_formula (base_confidence : Q) (n_high n_medium : Z)
    (caps : bool) : Q :=
  Qmax 0.1
    (Qmin 1.0
       (base_confidence + 0.3 * inject_Z n_high + 0.1 * inject_Z n_medium
        + (if caps then 0.2 else 0))).

(** The words of a list that occur in the lower-cased text, counted. *)
Definition occurring (words : list string) (text : string) : nat :=
  length (List.filter (fun word => Str.contains word (Str.lower text)) words).

(** A classifier output of the expected shape: a list whose first item is
    a dict with a string under ["label"] and a number under ["score"]. *)
Definition well_formed (v : pyval) : Prop :=
  exists entry rest label score,
    v = PList (PDict entry :: rest) /\
    assoc "label" entry = Some (PStr label) /\
    assoc "score" entry = Some (PNum score).

(** The classifier is missing, raises on [text], or returns an output that
    is not well formed. *)
Definition classifier_fails (self : EmotionDetector) (text : string) : Prop :=
  match classifier self with
  | None => True
  | Some clf =>
      match clf text with
      | Py.Raise _ => True
      | Py.Ok v => ~ well_formed v
      end
  end.

(** *** Vocabulary over doubles *)

(** The table entry of "happy", over doubles. *)
Definition happy_params : B64.VoiceParameters :=
  B64.mkVoiceParameters 220 10%float 0.95%float "strong".

(** The upper-case letters of a text, counted. *)
Definition upper_letters (text : string) : nat :=
  length (List.filter Str.isupper (list_ascii_of_string text)).

(** The caps bonus applies: upper-case letters over max(1, length), as a
    double, exceeds 0.3. *)
Definition caps_bonus (text : string) : bool :=
  (0.3 <? B64.of_int (Z.of_nat (upper_letters text))
          / B64.of_int (Z.max 1 (Z.of_nat (String.length text))))%float.

(** One contribution: [inc] added to the score, the sum capped at 1.0. *)
Definition capped_add (inc score : float) : float :=
  B64.min 1.0 (score + inc)%float.

(** The estimate as a sequence of contributions: 0.3 once per high marker,
    then 0.1 once per medium marker, then 0.2 for the caps bonus, each sum
    rounded and capped, and the final clamp. *)
Definition intensity_by_steps (base_confidence : float) (n_high n_medium : nat)
    (caps : bool) : float :=
  let score := Nat.iter n_high (capped_add 0.3) base_confidence in
  let score := Nat.iter n_medium (capped_add 0.1) score in
  let score := if caps then capped_add 0.2 score else score in
  B64.max 0.1 (B64.min 1.0 score).

(** The closed form of the claim, evaluated in doubles from left to right. *)
Definition intensity_sum_b64 (base_confidence : float) (n_high n_medium : nat)
    (caps : bool) : float :=
  B64.max 0.1
    (B64.min 1.0
       (base_confidence + 0.3 * B64.of_int (Z.of_nat n_high)
        + 0.1 * B64.of_int (Z.of_nat n_medium)
        + (if caps then 0.2 else 0))%float).

(** The occurrences of a word in a text: the positions at which it starts. *)
Fixpoint occurrences (word s : string) : nat :=
  ((if String.prefix word s then 1 else 0)
   + match s with
     | EmptyString => 0
     | String _ s' => occurrences word s'
     end)%nat.

(** The occurrences of the words of a list in the lower-cased text. *)
Definition total_occurrences (words : list string) (text : string) : nat :=
  list_sum (map (fun word => occurrences word (Str.lower text)) words).

(** ** Vocabulary of the further properties *)

(** The calls whose failure makes [_generate_audio] fail: all but the two
    of the voice selection. *)
Definition essential_calls (bk : Tts.backend) (text : string)
    (params : VoiceParameters) : list Tts.call :=
  [ Tts.Init; Tts.SetRate (rate params); Tts.SetVolume (volume params);
    Tts.NamedTemporaryFile; Tts.CloseFile (Tts.temp_name bk);
    Tts.SaveToFile text (Tts.temp_name bk); Tts.RunAndWait; Tts.Stop ].

(** Every character of the string is white space. *)
Fixpoint all_whitespace (s : string) : bool :=
  match s with
  | EmptyString => true
  | String c s' => Str.isspace c && all_whitespace s'
  end.

(** The request body carries no text: no ["text"] key, or a string of
    white space only. *)
Definition no_text (data : pyval) : Prop :=
  exists items,
    data = PDict items /\
    (assoc "text" items = None \/
     exists s, assoc "text" items = Some (PStr s) /\ all_whitespace s = true).

(** The id given to a request handled at time [now]. *)
Definition audio_id_at (now : Q) : string := Str.of_int (Py.int (now * 1000)).

(** The line is a quit command of the command line loop. *)
Definition is_quit (s : string) : bool :=
  existsb (String.eqb (Str.lower (Str.strip s))) quit_words.

(** * Properties *)

(** ** Comparisons, [min], [max] and [int] *)

Lemma ltb_lt (a b : Q) : Py.ltb a b = true <-> a < b.
Proof. unfold Py.ltb, Qlt. apply Z.ltb_lt. Qed.

Lemma ltb_ge (a b : Q) : Py.ltb a b = false <-> b <= a.
Proof. unfold Py.ltb, Qle. apply Z.ltb_ge. Qed.

Lemma min_cases (a b : Q) :
  (b < a /\ Py.min a b = b) \/ (a <= b /\ Py.min a b = a).
Proof.
  unfold Py.min. destruct (Py.ltb b a) eqn:E.
  - left. split; [now apply ltb_lt | reflexivity].
  - right. split; [now apply ltb_ge | reflexivity].
Qed.

Lemma max_cases (a b : Q) :
  (a < b /\ Py.max a b = b) \/ (b <= a /\ Py.max a b = a).
Proof.
  unfold Py.max. destruct (Py.ltb a b) eqn:E.
  - left. split; [now apply ltb_lt | reflexivity].
  - right. split; [now apply ltb_ge | reflexivity].
Qed.

(** Replace every [Qmin], [Qmax], [Py.min] and [Py.max] of the goal and of
    the hypotheses by its value in each case of its defining comparison,
    then conclude by linear arithmetic. *)
Ltac minmax_cases :=
  repeat match goal with
  | |- context [Py.min ?a ?b] =>
      let H := fresh "H" in let E := fresh "E" in let t := fresh "t" in
      destruct (min_cases a b) as [[H E] | [H E]];
      set (t := Py.min a b) in *; clearbody t; subst t
  | H0 : context [Py.min ?a ?b] |- _ =>
      let H := fresh "H" in let E := fresh "E" in let t := fresh "t" in
      destruct (min_cases a b) as [[H E] | [H E]];
      set (t := Py.min a b) in *; clearbody t; subst t
  | |- context [Py.max ?a ?b] =>
      let H := fresh "H" in let E := fresh "E" in let t := fresh "t" in
      destruct (max_cases a b) as [[H E] | [H E]];
      set (t := Py.max a b) in *; clearbody t; subst t
  | H0 : context [Py.max ?a ?b] |- _ =>
      let H := fresh "H" in let E := fresh "E" in let t := fresh "t" in
      destruct (max_cases a b) as [[H E] | [H E]];
      set (t := Py.max a b) in *; clearbody t; subst t
  | |- context [Qmin ?a ?b] =>
      let H := fresh "H" in let E := fresh "E" in let t := fresh "t" in
      destruct (Q.min_spec a b) as [[H E] | [H E]];
      set (t := Qmin a b) in *; clearbody t
  | H0 : context [Qmin ?a ?b] |- _ =>
      let H := fresh "H" in let E := fresh "E" in let t := fresh "t" in
      destruct (Q.min_spec a b) as [[H E] | [H E]];
      set (t := Qmin a b) in *; clearbody t
  | |- context [Qmax ?a ?b] =>
      let H := fresh "H" in let E := fresh "E" in let t := fresh "t" in
      destruct (Q.max_spec a b) as [[H E] | [H E]];
      set (t := Qmax a b) in *; clearbody t
  | H0 : context [Qmax ?a ?b] |- _ =>
      let H := fresh "H" in let E := fresh "E" in let t := fresh "t" in
      destruct (Q.max_spec a b) as [[H E] | [H E]];
      set (t := Qmax a b) in *; clearbody t
  end.

Ltac minmax_lra := minmax_cases; lra.

Lemma min_is_Qmin (a b : Q) : Py.min a b == Qmin a b.
Proof.
  destruct (min_cases a b) as [[H E] | [H E]]; rewrite E.
  - symmetry. apply Q.min_r. lra.
  - symmetry. apply Q.min_l. lra.
Qed.

Lemma max_is_Qmax (a b : Q) : Py.max a b == Qmax a b.
Proof.
  destruct (max_cases a b) as [[H E] | [H E]]; rewrite E.
  - symmetry. apply Q.max_r. lra.
  - symmetry. apply Q.max_l. lra.
Qed.

Lemma clamp_bounds (lo hi x : Q) :
  lo <= hi -> lo <= Py.max lo (Py.min hi x) <= hi.
Proof. intros Hlh. minmax_lra. Qed.

Lemma iclamp_eq (lo hi z : Z) :
  Py.imax lo (Py.imin hi z) = Z.max lo (Z.min hi z).
Proof.
  unfold Py.imax, Py.imin.
  destruct (z <? hi)%Z eqn:E1; [apply Z.ltb_lt in E1 | apply Z.ltb_ge in E1];
    match goal with |- context [(?a <? ?b)%Z] => destruct (a <? b)%Z eqn:E2 end;
    [apply Z.ltb_lt in E2 | apply Z.ltb_ge in E2
    | apply Z.ltb_lt in E2 | apply Z.ltb_ge in E2]; lia.
Qed.

Lemma int_truncation (x : Q) : truncation (Py.int x) x.
Proof.
  destruct x as [n d]. unfold truncation, Py.int. cbn [Qnum Qden].
  split; intros Hx.
  - assert (Hn : (0 <= n)%Z).
    { unfold Qle in Hx. cbn in Hx. lia. }
    rewrite Z.quot_div_nonneg by lia.
    change (n / Z.pos d)%Z with (Qfloor (n # d)).
    split; [apply Qfloor_le |].
    pose proof (Qlt_floor (n # d)) as H.
    rewrite inject_Z_plus in H. exact H.
  - assert (Hn : (n <= 0)%Z).
    { unfold Qle in Hx. cbn in Hx. lia. }
    assert (E : (n ÷ Z.pos d = Qceiling (n # d))%Z).
    { unfold Qceiling, Qfloor. cbn [Qopp Qnum Qden].
      rewrite <- (Z.opp_involutive n) at 1.
      rewrite Z.quot_opp_l by lia.
      rewrite Z.quot_div_nonneg by lia. reflexivity. }
    rewrite E. split; [| apply Qle_ceiling].
    pose proof (Qceiling_lt (n # d)) as H.
    unfold Z.sub in H. rewrite inject_Z_plus, inject_Z_opp in H.
    change (inject_Z 1) with 1 in H. lra.
Qed.

(** ** Intensity scaling *)

Lemma scaling_rate (b : VoiceParameters) (i : Q) :
  rate (_apply_intensity_scaling b i)
  = Z.max 100 (Z.min 300 (Py.int (raw_rate b i))).
Proof. unfold _apply_intensity_scaling. cbn. apply iclamp_eq. Qed.

(** The bounds of the result come from the clamps alone. *)
Lemma scaling_clamps (b : VoiceParameters) (i : Q) :
  valid_emphasis (emphasis b) -> in_bounds (_apply_intensity_scaling b i).
Proof.
  intros He. unfold in_bounds.
  split; [rewrite scaling_rate; lia |].
  unfold _apply_intensity_scaling. cbn.
  split; [apply clamp_bounds; lra |].
  split; [apply clamp_bounds; lra |].
  destruct (Py.ltb 0.6 i); [exact He | left; reflexivity].
Qed.

(** C1: scaling a base parameter set whose fields are within their bounds
    by an intensity in [0,1] yields a parameter set with rate in
    [100,300], pitch in [-50,50], volume in [0.1,1.0] and an emphasis among
    none, moderate and strong. *)
Theorem scaling_in_bounds (b : VoiceParameters) (i : Q) :
  in_bounds b -> 0 <= i <= 1 -> in_bounds (_apply_intensity_scaling b i).
Proof.
  intros (_ & _ & _ & He) _. apply scaling_clamps. exact He.
Qed.

Lemma scaling_in_bounds_witness :
  in_bounds (_apply_intensity_scaling surprised_params 0.75).
Proof.
  apply (scaling_in_bounds surprised_params 0.75).
  - unfold in_bounds, valid_emphasis, surprised_params. cbn.
    repeat split; try lia; try lra. right; right; reflexivity.
  - lra.
Defined.

Example surprised_rate :
  _initialize_voice_mappings !! "surprised" = Some surprised_params /\
  raw_rate surprised_params 0.75 == 213.75 /\
  rate (_apply_intensity_scaling surprised_params 0.75) = 213%Z.
Proof. repeat split. Qed.

(** C2 as stated fails: for the table entry of "surprised" (rate 210) and
    intensity 0.75 the float is 213.75, the scaled rate is 213, and 213 is
    not an integer nearest to 213.75. *)
Lemma scaling_rate_not_nearest :
  ~ (forall (b : VoiceParameters) (i : Q),
       in_bounds b -> 0 <= i <= 1 ->
       nearest_integer (rate (_apply_intensity_scaling b i))
                       (Qmax 100 (Qmin 300 (raw_rate b i)))).
Proof.
  intros H. specialize (H surprised_params 0.75).
  assert (Hb : in_bounds surprised_params).
  { unfold in_bounds, valid_emphasis, surprised_params. cbn.
    repeat split; try lia; try lra. right; right; reflexivity. }
  assert (Hi : 0 <= 0.75 <= 1) by lra.
  specialize (H Hb Hi). unfold nearest_integer in H.
  vm_compute in H. apply H. reflexivity.
Qed.

Lemma b64_int_truncation (x : float) (q : Q) :
  B64.value x = Some q -> exists t, B64.int x = Some t /\ truncation t q.
Proof.
  intros H. exists (Py.int q). unfold B64.int. rewrite H.
  split; [reflexivity | apply int_truncation].
Qed.

Lemma truncation_unique (t : Z) (z : Z) : truncation t (inject_Z z) -> t = z.
Proof.
  intros [Hp Hn]. destruct (Z.le_gt_cases 0 z) as [Hz | Hz].
  - assert (H0 : 0 <= inject_Z z)
      by (change 0 with (inject_Z 0); rewrite <- Zle_Qle; exact Hz).
    destruct (Hp H0) as [L U].
    rewrite <- Zle_Qle in L.
    assert (U' : inject_Z z < inject_Z (t + 1))
      by (rewrite inject_Z_plus; exact U).
    rewrite <- Zlt_Qlt in U'. lia.
  - assert (H0 : inject_Z z <= 0).
    { change 0 with (inject_Z 0). rewrite <- Zle_Qle. lia. }
    destruct (Hn H0) as [L U].
    rewrite <- Zle_Qle in U.
    assert (L' : inject_Z (t + -1) < inject_Z z).
    { rewrite inject_Z_plus. exact L. }
    rewrite <- Zlt_Qlt in L'. lia.
Qed.

(** C2, amended: for a base rate within [100,300] and an intensity i in
    [0,1], the scaled rate is the double base.rate + (base.rate - 200) * i *
    0.5, as computed with the rounding of each operation, with its
    fractional part dropped (truncation toward zero, not rounding to the
    nearest integer) and then clamped to [100,300]; the call raises exactly
    when that double is not finite. *)
Theorem scaling_rate_is_truncated_double (b : B64.VoiceParameters)
    (i : float) :
  (100 <= B64.rate b <= 300)%Z ->
  (0 <=? i)%float = true -> (i <=? 1)%float = true ->
  match B64.value (B64.raw_rate b i) with
  | Some q =>
      exists (p : B64.VoiceParameters) (t : Z),
        B64._apply_intensity_scaling b i = Some p /\
        truncation t q /\
        B64.rate p = Z.max 100 (Z.min 300 t)
  | None => B64._apply_intensity_scaling b i = None
  end.
Proof.
  intros _ _ _. unfold B64._apply_intensity_scaling.
  destruct (B64.value (B64.raw_rate b i)) as [q |] eqn:E.
  - destruct (b64_int_truncation _ _ E) as (t & Ht & Tr). rewrite Ht.
    eexists. exists t. split; [reflexivity |]. split; [exact Tr |].
    cbn [B64.rate B64.set_rate B64.set_pitch B64.set_volume].
    apply iclamp_eq.
  - unfold B64.int. rewrite E. reflexivity.
Qed.

Lemma scaling_rate_is_truncated_double_witness :
  (exists p, B64._apply_intensity_scaling happy_params 0.19999999999999998
             = Some p /\ B64.rate p = 222%Z) /\
  (exists p, B64._apply_intensity_scaling happy_params 0.75
             = Some p /\ B64.rate p = 227%Z).
Proof.
  assert (Hr : (100 <= B64.rate happy_params <= 300)%Z) by (cbn; lia).
  split.
  - pose proof (scaling_rate_is_truncated_double happy_params
                  0.19999999999999998 Hr eq_refl eq_refl) as H.
    assert (E : B64.value (B64.raw_rate happy_params 0.19999999999999998)
                = Some (inject_Z 222)) by (vm_compute; reflexivity).
    rewrite E in H. destruct H as (p & t & Hp & Tr & Hc).
    exists p. split; [exact Hp |].
    apply truncation_unique in Tr. subst t. exact Hc.
  - pose proof (scaling_rate_is_truncated_double happy_params 0.75
                  Hr eq_refl eq_refl) as H.
    assert (E : B64.value (B64.raw_rate happy_params 0.75)
                = Some (455 # 2)) by (vm_compute; reflexivity).
    rewrite E in H. destruct H as (p & t & Hp & Tr & Hc).
    exists p. split; [exact Hp |].
    assert (Et : t = 227%Z).
    { destruct Tr as [Tp _].
      assert (H0 : 0 <= 455 # 2) by lra.
      destruct (Tp H0) as [L U].
      unfold Qle, Qlt in L, U. cbn in L, U. lia. }
    subst t. exact Hc.
Defined.

(** C3: the scaled emphasis is the base emphasis when the intensity
    exceeds 0.6 and "none" when it is at most 0.6, whatever the base
    emphasis. *)
Theorem scaling_emphasis_gate (b : VoiceParameters) (i : Q) :
  (0.6 < i -> emphasis (_apply_intensity_scaling b i) = emphasis b) /\
  (i <= 0.6 -> emphasis (_apply_intensity_scaling b i) = "none").
Proof.
  unfold _apply_intensity_scaling. cbn. split; intros H.
  - apply ltb_lt in H. rewrite H. reflexivity.
  - apply ltb_ge in H. rewrite H. reflexivity.
Qed.

Lemma scaling_emphasis_gate_witness :
  emphasis (_apply_intensity_scaling surprised_params 0.75) = "strong" /\
  emphasis (_apply_intensity_scaling surprised_params 0.6) = "none".
Proof.
  split.
  - apply (proj1 (scaling_emphasis_gate surprised_params 0.75)). lra.
  - apply (proj2 (scaling_emphasis_gate surprised_params 0.6)). lra.
Defined.

(** ** Intensity estimation *)

Lemma imax_eq (a b : Z) : Py.imax a b = Z.max a b.
Proof.
  unfold Py.imax.
  destruct (a <? b)%Z eqn:E; [apply Z.ltb_lt in E | apply Z.ltb_ge in E]; lia.
Qed.

Lemma truediv_guarded (text : string) :
  Py.truediv (Str.count_upper text) (Py.imax 1 (Str.len text))
  = Py.Ok (caps_ratio text).
Proof.
  unfold Py.truediv, caps_ratio. rewrite imax_eq.
  destruct (Z.max 1 (Str.len text) =? 0)%Z eqn:E; [| reflexivity].
  apply Z.eqb_eq in E. lia.
Qed.

Lemma getitem_high (h m l : list string) :
  Py.getitem (markers_dict h m l) "high" = Py.Ok h.
Proof.
  unfold Py.getitem, markers_dict, Py.dict. cbn [fold_left fst snd].
  rewrite lookup_insert_ne by discriminate.
  rewrite lookup_insert_ne by discriminate.
  rewrite lookup_insert_eq. reflexivity.
Qed.

Lemma getitem_medium (h m l : list string) :
  Py.getitem (markers_dict h m l) "medium" = Py.Ok m.
Proof.
  unfold Py.getitem, markers_dict, Py.dict. cbn [fold_left fst snd].
  rewrite lookup_insert_ne by discriminate.
  rewrite lookup_insert_eq. reflexivity.
Qed.

Lemma calculate_intensity_with_unfold (h m l : list string) (text : string)
    (c : Q) :
  _calculate_intensity_with (markers_dict h m l) text c
  = Py.Ok (Py.max 0.1 (Py.min 1.0 (final_score h m text c))).
Proof.
  unfold _calculate_intensity_with.
  rewrite getitem_high. cbn [Py.bind].
  rewrite getitem_medium. cbn [Py.bind].
  rewrite truediv_guarded. cbn [Py.bind]. reflexivity.
Qed.

Lemma count_nonneg (n : nat) : 0 <= inject_Z (Z.of_nat n).
Proof. change 0 with (inject_Z 0). rewrite <- Zle_Qle. lia. Qed.

Lemma count_succ (n : nat) :
  inject_Z (Z.of_nat (S n)) == inject_Z (Z.of_nat n) + 1.
Proof. rewrite Nat2Z.inj_succ. unfold Z.succ. rewrite inject_Z_plus. reflexivity. Qed.

(** A marker loop adds its increment once per matched marker, under the
    ceiling 1.0. *)
Lemma marker_loop_capped (tl : string) (inc : Q) (l : list string) :
  0 <= inc ->
  forall s : Q,
    Qmin 1 (fold_left (marker_step tl inc) l s)
    == Qmin 1 (s + inc * inject_Z (Z.of_nat
         (length (List.filter (fun marker => Str.contains marker tl) l)))).
Proof.
  intros Hinc. induction l as [| x l IH]; intros s; cbn [fold_left List.filter].
  - cbn [length]. change (inject_Z (Z.of_nat 0)) with 0.
    assert (E : s + inc * 0 == s) by ring. rewrite E. reflexivity.
  - rewrite IH. unfold marker_step at 1.
    destruct (Str.contains x tl).
    + cbn [length]. rewrite count_succ.
      set (n := inject_Z (Z.of_nat (length _))).
      assert (Hn : 0 <= inc * n).
      { apply Qmult_le_0_compat; [exact Hinc | apply count_nonneg]. }
      assert (E : s + inc * (n + 1) == s + inc + inc * n) by ring.
      rewrite E. set (p := inc * n) in *. clearbody p.
      minmax_lra.
    + reflexivity.
Qed.

Lemma intensity_closed_form (h m : list string) (text : string) (c : Q) :
  Py.max 0.1 (Py.min 1.0 (final_score h m text c))
  == intensity_formula c (matched_count text h) (matched_count text m)
       (shouting text).
Proof.
  unfold final_score, intensity_formula, matched_count, matched.
  assert (H3 : 0 <= 0.3) by lra. assert (H1 : 0 <= 0.1) by lra.
  pose proof (marker_loop_capped (Str.lower text) 0.3 h H3 c) as A.
  set (sh := fold_left (marker_step (Str.lower text) 0.3) h c) in *.
  pose proof (marker_loop_capped (Str.lower text) 0.1 m H1 sh) as B.
  set (sm := fold_left (marker_step (Str.lower text) 0.1) m sh) in *.
  pose proof (count_nonneg (length (List.filter
    (fun marker => Str.contains marker (Str.lower text)) h))) as Nh.
  pose proof (count_nonneg (length (List.filter
    (fun marker => Str.contains marker (Str.lower text)) m))) as Nm.
  set (nh := inject_Z (Z.of_nat (length (List.filter _ h)))) in *.
  set (nm := inject_Z (Z.of_nat (length (List.filter _ m)))) in *.
  clearbody sh sm nh nm. clear H3 H1.
  destruct (shouting text); cbv iota; minmax_lra.
Qed.

Lemma filter_length_perm {A : Type} (f : A -> bool) (l l' : list A) :
  Permutation l l' ->
  length (List.filter f l) = length (List.filter f l').
Proof.
  induction 1 as [| x l l' _ IH | x y l | l l' l'' _ IH1 _ IH2];
    cbn [List.filter].
  - reflexivity.
  - destruct (f x); cbn [length]; congruence.
  - destruct (f x), (f y); reflexivity.
  - congruence.
Qed.

Lemma high_markers_NoDup : List.NoDup high_markers.
Proof. apply NoDup_ListNoDup, (bool_decide_unpack _). vm_compute. exact I. Qed.

Lemma medium_markers_NoDup : List.NoDup medium_markers.
Proof. apply NoDup_ListNoDup, (bool_decide_unpack _). vm_compute. exact I. Qed.

(** In exact arithmetic the estimate is the closed form
    max(0.1, min(1.0, c + 0.3 * n_high + 0.1 * n_medium + bonus)). *)
Lemma intensity_closed_form_exact (text : string) (c : Q) :
  exists r : Q,
    _calculate_intensity text c = Py.Ok r /\
    r == intensity_formula c (matched_count text high_markers)
           (matched_count text medium_markers) (shouting text) /\
    List.NoDup high_markers /\ List.NoDup medium_markers /\
    forall h' m' : list string,
      Permutation high_markers h' -> Permutation medium_markers m' ->
      exists r' : Q,
        _calculate_intensity_with (markers_dict h' m' low_markers) text c
        = Py.Ok r' /\ r' == r.
Proof.
  unfold _calculate_intensity, intensity_markers.
  rewrite calculate_intensity_with_unfold. eexists. split; [reflexivity |].
  split; [apply intensity_closed_form |].
  split; [exact high_markers_NoDup |].
  split; [exact medium_markers_NoDup |].
  intros h' m' Ph Pm. rewrite calculate_intensity_with_unfold.
  eexists. split; [reflexivity |].
  rewrite !intensity_closed_form. unfold matched_count, matched.
  rewrite (filter_length_perm _ _ _ Ph), (filter_length_perm _ _ _ Pm).
  reflexivity.
Qed.

(** *** Over doubles *)

Lemma b64_getitem_unfold (h m l : list string) (text : string) (c : float) :
  B64._calculate_intensity_with (markers_dict h m l) text c
  = (caps_ratio <-
       B64.truediv (Str.count_upper text) (Py.imax 1 (Str.len text)) ;;
     Py.Ok (B64.max 0.1
              (B64.min 1.0
                 (let s := fold_left (B64.marker_step (Str.lower text) 0.3) h c in
                  let s := fold_left (B64.marker_step (Str.lower text) 0.1) m s in
                  if (0.3 <? caps_ratio)%float
                  then B64.min 1.0 (s + 0.2)%float else s)))).
Proof.
  unfold B64._calculate_intensity_with.
  rewrite getitem_high. cbn [Py.bind].
  rewrite getitem_medium. cbn [Py.bind]. reflexivity.
Qed.

Lemma b64_marker_loop (tl : string) (inc : float) (l : list string) :
  forall s : float,
    fold_left (B64.marker_step tl inc) l s
    = Nat.iter (length (List.filter (fun marker => Str.contains marker tl) l))
               (capped_add inc) s.
Proof.
  induction l as [| x l IH]; intros s; cbn [fold_left List.filter].
  - reflexivity.
  - rewrite IH. unfold B64.marker_step at 1.
    destruct (Str.contains x tl); [| reflexivity].
    cbn [length]. rewrite Nat.iter_succ_r. reflexivity.
Qed.

Lemma count_upper_letters (text : string) :
  Str.count_upper text = Z.of_nat (upper_letters text).
Proof.
  unfold upper_letters.
  induction text as [| ch text IH]; [reflexivity |].
  cbn [Str.count_upper list_ascii_of_string List.filter]. rewrite IH.
  destruct (Str.isupper ch); cbn [length]; lia.
Qed.

Lemma b64_calculate_intensity_steps (h m l : list string) (text : string)
    (c : float) :
  B64._calculate_intensity_with (markers_dict h m l) text c
  = Py.Ok (intensity_by_steps c (length (matched text h))
             (length (matched text m)) (caps_bonus text)).
Proof.
  rewrite b64_getitem_unfold. unfold B64.truediv. rewrite imax_eq.
  destruct (Z.max 1 (Str.len text) =? 0)%Z eqn:E;
    [apply Z.eqb_eq in E; lia |].
  cbn [Py.bind]. rewrite !b64_marker_loop.
  unfold intensity_by_steps, caps_bonus, matched, capped_add, Str.len.
  rewrite count_upper_letters. reflexivity.
Qed.

(** C4 as stated fails in the arithmetic of the code: for "good, not bad"
    (two medium markers) and base confidence 0.6 the estimate is
    (0.6 + 0.1) + 0.1 = 0.7999999999999999, while the closed form
    0.6 + 0.3 * 0 + 0.1 * 2 + 0 gives 0.8 in doubles and
    0.79999999999999997... in exact arithmetic from the same inputs. *)
Lemma intensity_closed_form_inexact :
  ~ (forall (text : string) (c : float),
       B64._calculate_intensity text c
       = Py.Ok (intensity_sum_b64 c (length (matched text high_markers))
                  (length (matched text medium_markers)) (caps_bonus text))) /\
  ~ (forall (text : string) (c r : float) (qc qr : Q),
       B64._calculate_intensity text c = Py.Ok r ->
       B64.value c = Some qc -> B64.value r = Some qr ->
       qr == intensity_formula qc (matched_count text high_markers)
               (matched_count text medium_markers) (caps_bonus text)).
Proof.
  split; intros H.
  - specialize (H "good, not bad" 0.6%float).
    assert (E : forall x y : float, Py.Ok x = Py.Ok y ->
                B64.value x = B64.value y) by (intros x y K; congruence).
    apply E in H. vm_compute in H. discriminate H.
  - specialize (H "good, not bad" 0.6%float 0.7999999999999999%float
                  _ _ eq_refl eq_refl eq_refl).
    vm_compute in H. discriminate H.
Qed.

(** C4, amended: the estimate is max(0.1, min(1.0, s)), where s is reached
    from baseConfidence by adding 0.3, capped at 1.0, once for every high
    marker that occurs in the lower-cased text, then 0.1, capped, once for
    every medium marker that occurs, then 0.2, capped, if the ratio of
    upper-case letters exceeds 0.3, each addition rounded to a double (in
    exact arithmetic this is the closed form of the claim); the markers of
    each list are distinct, every occurring marker contributes, and the
    result does not depend on the order in which the markers of a list are
    checked. *)
Theorem intensity_adds_per_marker (text : string) (c : float) :
  B64._calculate_intensity text c
  = Py.Ok (intensity_by_steps c (length (matched text high_markers))
             (length (matched text medium_markers)) (caps_bonus text)) /\
  List.NoDup high_markers /\ List.NoDup medium_markers /\
  forall h' m' : list string,
    Permutation high_markers h' -> Permutation medium_markers m' ->
    B64._calculate_intensity_with (markers_dict h' m' low_markers) text c
    = B64._calculate_intensity text c.
Proof.
  unfold B64._calculate_intensity, intensity_markers.
  split; [apply b64_calculate_intensity_steps |].
  split; [exact high_markers_NoDup |].
  split; [exact medium_markers_NoDup |].
  intros h' m' Ph Pm. rewrite !b64_calculate_intensity_steps.
  unfold matched.
  rewrite (filter_length_perm _ _ _ Ph), (filter_length_perm _ _ _ Pm).
  reflexivity.
Qed.

Lemma intensity_adds_per_marker_witness :
  B64._calculate_intensity "Good, not BAD!" 0.5
  = Py.Ok (B64.max 0.1
             (B64.min 1.0 (capped_add 0.1 (capped_add 0.1 (capped_add 0.1 0.5)))))
  /\ B64._calculate_intensity "WOW" 0.4
     = Py.Ok (B64.max 0.1 (B64.min 1.0 (capped_add 0.2 0.4)))
  /\ B64._calculate_intensity_with
       (markers_dict (rev high_markers) (rev medium_markers) low_markers)
       "Good, not BAD!" 0.5
     = B64._calculate_intensity "Good, not BAD!" 0.5.
Proof.
  split; [| split].
  - exact (proj1 (intensity_adds_per_marker "Good, not BAD!" 0.5)).
  - exact (proj1 (intensity_adds_per_marker "WOW" 0.4)).
  - destruct (intensity_adds_per_marker "Good, not BAD!" 0.5)
      as (_ & _ & _ & H).
    apply H; apply Permutation_rev.
Defined.

Lemma marker_loop_no_match (tl : string) (inc : Q) (l : list string) (s : Q) :
  List.filter (fun marker => Str.contains marker tl) l = [] ->
  fold_left (marker_step tl inc) l s = s.
Proof.
  revert s. induction l as [| x l IH]; intros s; cbn [fold_left List.filter].
  - reflexivity.
  - unfold marker_step at 2. destruct (Str.contains x tl).
    + discriminate.
    + exact (IH s).
Qed.

(** C5: for every text, the empty one included, and every base confidence
    in [0,1], the estimate is returned without an exception (the
    denominator of the caps ratio is never zero) and lies in [0.1,1.0];
    when no high or medium marker occurs and the caps ratio is at most 0.3
    it is max(0.1, min(1.0, baseConfidence)). *)
Theorem intensity_total_and_bounded (text : string) (c : Q) :
  0 <= c <= 1 ->
  Py.imax 1 (Str.len text) <> 0%Z /\
  _calculate_intensity "" c = Py.Ok (Py.max 0.1 (Py.min 1.0 c)) /\
  exists r : Q,
    _calculate_intensity text c = Py.Ok r /\
    0.1 <= r <= 1.0 /\
    (matched text high_markers = [] -> matched text medium_markers = [] ->
     shouting text = false -> r = Py.max 0.1 (Py.min 1.0 c)).
Proof.
  intros Hc. split; [rewrite imax_eq; lia |].
  split; [reflexivity |].
  unfold _calculate_intensity, intensity_markers.
  rewrite calculate_intensity_with_unfold. eexists. split; [reflexivity |].
  split; [apply clamp_bounds; lra |].
  unfold matched, final_score. intros Hh Hm Hs.
  rewrite Hs, (marker_loop_no_match _ _ _ _ Hh), (marker_loop_no_match _ _ _ _ Hm).
  reflexivity.
Qed.

Lemma intensity_total_and_bounded_witness :
  _calculate_intensity "" 0.85 = Py.Ok (Py.max 0.1 (Py.min 1.0 0.85)) /\
  exists r : Q,
    _calculate_intensity "I feel down today." 0.85 = Py.Ok r /\
    0.1 <= r <= 1.0 /\ r = Py.max 0.1 (Py.min 1.0 0.85).
Proof.
  assert (Hc : 0 <= 0.85 <= 1) by lra.
  destruct (intensity_total_and_bounded "I feel down today." 0.85 Hc)
    as (_ & He & r & Hr & Hb & Hn).
  split; [exact He |].
  exists r. split; [exact Hr |]. split; [exact Hb |].
  apply Hn; reflexivity.
Defined.

Lemma matched_NoDup (text : string) (l : list string) :
  List.NoDup l -> List.NoDup (matched text l).
Proof. apply List.NoDup_filter. Qed.

Lemma matched_count_incl (t1 t2 : string) (l : list string) :
  List.NoDup l -> incl (matched t1 l) (matched t2 l) ->
  inject_Z (matched_count t1 l) <= inject_Z (matched_count t2 l).
Proof.
  intros Hl Hi. unfold matched_count. rewrite <- Zle_Qle.
  apply Nat2Z.inj_le. apply NoDup_incl_length; [| exact Hi].
  now apply matched_NoDup.
Qed.

(** C6: with the same base confidence, a text that matches at least the
    high and medium markers matched by another text, and that gets the caps
    bonus whenever the other does, has an estimate at least as large. *)
Theorem intensity_monotone_in_markers (c : Q) (t1 t2 : string) :
  incl (matched t1 high_markers) (matched t2 high_markers) ->
  incl (matched t1 medium_markers) (matched t2 medium_markers) ->
  (shouting t1 = true -> shouting t2 = true) ->
  exists r1 r2 : Q,
    _calculate_intensity t1 c = Py.Ok r1 /\
    _calculate_intensity t2 c = Py.Ok r2 /\
    r1 <= r2.
Proof.
  intros Hh Hm Hs. unfold _calculate_intensity, intensity_markers.
  rewrite !calculate_intensity_with_unfold.
  do 2 eexists. split; [reflexivity |]. split; [reflexivity |].
  rewrite !intensity_closed_form. unfold intensity_formula.
  pose proof (matched_count_incl t1 t2 _ high_markers_NoDup Hh) as Ih.
  pose proof (matched_count_incl t1 t2 _ medium_markers_NoDup Hm) as Im.
  set (a1 := inject_Z (matched_count t1 high_markers)) in *.
  set (a2 := inject_Z (matched_count t2 high_markers)) in *.
  set (b1 := inject_Z (matched_count t1 medium_markers)) in *.
  set (b2 := inject_Z (matched_count t2 medium_markers)) in *.
  clearbody a1 a2 b1 b2.
  destruct (shouting t1), (shouting t2); cbv iota;
    try (specialize (Hs eq_refl); discriminate); minmax_lra.
Qed.

Lemma intensity_monotone_in_markers_witness :
  exists r1 r2 : Q,
    _calculate_intensity "good day" 0.5 = Py.Ok r1 /\
    _calculate_intensity "good, amazing day!" 0.5 = Py.Ok r2 /\
    r1 <= r2.
Proof.
  apply (intensity_monotone_in_markers 0.5 "good day" "good, amazing day!").
  - vm_compute. intros a [].
  - vm_compute. intros a [E | []]. right. left. exact E.
  - vm_compute. discriminate.
Defined.

Lemma filter_eq_agree {A : Type} (f g : A -> bool) (l : list A) :
  List.filter f l = List.filter g l -> forall x, In x l -> f x = g x.
Proof.
  induction l as [| y l IH]; intros E x Hx; [destruct Hx |].
  cbn [List.filter] in E.
  assert (Hhead : f y = g y).
  { destruct (f y) eqn:Ef, (g y) eqn:Eg; try reflexivity.
    - assert (Hy : In y (List.filter g l)) by (rewrite <- E; now left).
      apply filter_In in Hy. destruct Hy as [_ Hy]. congruence.
    - assert (Hy : In y (List.filter f l)) by (rewrite E; now left).
      apply filter_In in Hy. destruct Hy as [_ Hy]. congruence. }
  destruct Hx as [-> | Hx]; [exact Hhead |].
  apply IH; [| exact Hx].
  rewrite Hhead in E. destruct (g y); [now inversion E | exact E].
Qed.

Lemma marker_loop_agree (tl1 tl2 : string) (inc : Q) (l : list string) :
  (forall x, In x l -> Str.contains x tl1 = Str.contains x tl2) ->
  forall s, fold_left (marker_step tl1 inc) l s
            = fold_left (marker_step tl2 inc) l s.
Proof.
  induction l as [| x l IH]; intros H s; cbn [fold_left]; [reflexivity |].
  unfold marker_step at 2 4. rewrite (H x) by now left.
  apply IH. intros y Hy. apply H. now right.
Qed.

(** C10: the low-intensity list never affects the estimate: replacing it by
    any other list leaves every estimate unchanged, and two texts that
    match the same high and medium markers and agree on the caps bonus get
    the same estimate, whatever low-intensity markers they contain. *)
Theorem low_markers_ignored :
  (forall (low : list string) (text : string) (c : Q),
     _calculate_intensity_with
       (markers_dict high_markers medium_markers low) text c
     = _calculate_intensity text c) /\
  (forall (c : Q) (t1 t2 : string),
     matched t1 high_markers = matched t2 high_markers ->
     matched t1 medium_markers = matched t2 medium_markers ->
     shouting t1 = shouting t2 ->
     _calculate_intensity t1 c = _calculate_intensity t2 c).
Proof.
  split.
  - intros low text c. unfold _calculate_intensity, intensity_markers.
    rewrite !calculate_intensity_with_unfold. reflexivity.
  - intros c t1 t2 Hh Hm Hs. unfold _calculate_intensity, intensity_markers.
    rewrite !calculate_intensity_with_unfold. unfold final_score.
    rewrite Hs.
    rewrite (marker_loop_agree (Str.lower t1) (Str.lower t2) 0.3 high_markers)
      by (apply filter_eq_agree; exact Hh).
    rewrite (marker_loop_agree (Str.lower t1) (Str.lower t2) 0.1 medium_markers)
      by (apply filter_eq_agree; exact Hm).
    reflexivity.
Qed.

Lemma low_markers_ignored_witness :
  matched "okay. fine, alright" low_markers = low_markers /\
  matched "hm" low_markers = [] /\
  _calculate_intensity "okay. fine, alright" 0.5
  = _calculate_intensity "hm" 0.5.
Proof.
  split; [reflexivity |]. split; [reflexivity |].
  apply (proj2 low_markers_ignored 0.5 "okay. fine, alright" "hm");
    reflexivity.
Defined.

(** ** Base parameter lookup *)

Lemma getitem_neutral :
  Py.getitem _initialize_voice_mappings "neutral"
  = Py.Ok (mkVoiceParameters 200 0 0.85 "none").
Proof. reflexivity. Qed.

Lemma lookup_unknown (e : string) :
  ~ In e (map fst voice_items) -> _initialize_voice_mappings !! e = None.
Proof.
  intros H. unfold _initialize_voice_mappings, Py.dict, voice_items.
  cbn [fold_left fst snd].
  rewrite !lookup_insert_ne by (intros <-; apply H; cbn; tauto).
  apply lookup_empty.
Qed.

(** C7: the base-parameter lookup never raises; for each of the eight table
    keys it returns the entry of that key, and for every other string it
    returns the neutral entry (rate 200, pitch 0, volume 0.85, emphasis
    none). *)
Theorem base_lookup_defaults_to_neutral :
  length voice_items = 8%nat /\
  (forall e : string,
     exists p, base_params_for _initialize_voice_mappings e = Py.Ok p) /\
  (forall (e : string) (p : VoiceParameters),
     In (e, p) voice_items ->
     base_params_for _initialize_voice_mappings e = Py.Ok p) /\
  (forall e : string,
     ~ In e (map fst voice_items) ->
     base_params_for _initialize_voice_mappings e
     = Py.Ok (mkVoiceParameters 200 0 0.85 "none")).
Proof.
  assert (Hin : forall e p, In (e, p) voice_items ->
            base_params_for _initialize_voice_mappings e = Py.Ok p).
  { intros e p H. unfold voice_items in H. cbn [In] in H.
    repeat (destruct H as [H | H]; [inversion H; subst; reflexivity |]).
    destruct H. }
  assert (Hout : forall e, ~ In e (map fst voice_items) ->
            base_params_for _initialize_voice_mappings e
            = Py.Ok (mkVoiceParameters 200 0 0.85 "none")).
  { intros e H. unfold base_params_for. rewrite getitem_neutral.
    cbn [Py.bind]. unfold Py.get. rewrite (lookup_unknown e H). reflexivity. }
  split; [reflexivity |]. split; [| split; assumption].
  intros e. destruct (in_dec string_dec e (map fst voice_items)) as [H | H].
  - apply in_map_iff in H. destruct H as ([e' p] & <- & H).
    exists p. apply Hin. exact H.
  - eexists. apply Hout. exact H.
Qed.

Lemma base_lookup_defaults_to_neutral_witness :
  base_params_for _initialize_voice_mappings "sad"
  = Py.Ok (mkVoiceParameters 160 (-10) 0.7 "none") /\
  base_params_for _initialize_voice_mappings "bored"
  = Py.Ok (mkVoiceParameters 200 0 0.85 "none").
Proof.
  destruct base_lookup_defaults_to_neutral as (_ & _ & Hin & Hout). split.
  - apply Hin. cbn. tauto.
  - apply Hout. cbn. intros H.
    repeat (destruct H as [H | H]; [discriminate H |]). exact H.
Defined.

(** ** Fallback heuristic *)

Lemma sum_ones_if_count (cond : string -> bool) (words : list string) :
  sum_ones_if cond words = Z.of_nat (length (List.filter cond words)).
Proof.
  unfold sum_ones_if.
  assert (G : forall acc : Z,
            fold_left (fun a w => if cond w then (a + 1)%Z else a) words acc
            = (acc + Z.of_nat (length (List.filter cond words)))%Z).
  { induction words as [| w l IH]; intros acc; cbn [fold_left List.filter].
    - cbn. lia.
    - rewrite IH. destruct (cond w); cbn [length]; lia. }
  rewrite G. lia.
Qed.

(** C8 as stated fails: in "good good bad" the positive words occur twice
    and the negative words once, and the result is neutral, not happy. *)
Lemma fallback_counts_words_not_occurrences :
  ~ (forall text : string,
       (total_occurrences negative_words text
        < total_occurrences positive_words text)%nat ->
       _basic_sentiment_analysis text = mkEmotionResult "happy" 0.7 0.6).
Proof.
  intros H. specialize (H "good good bad").
  assert (L : (total_occurrences negative_words "good good bad"
               < total_occurrences positive_words "good good bad")%nat)
    by (vm_compute; lia).
  specialize (H L). vm_compute in H. discriminate H.
Qed.

(** C8, amended: without a classifier the detector returns the fallback
    result, which counts the words of the positive list and of the negative
    list that occur as substrings of the lower-cased text, each listed word
    once however often it occurs, and is happy/0.7/0.6 when more positive
    than negative words occur, angry/0.7/0.6 when more negative than
    positive words occur, and neutral/0.8/0.3 otherwise; "This is a great
    and wonderful day" gives happy/0.7/0.6 and "I hate this awful terrible
    mess" gives angry/0.7/0.6. *)
Theorem fallback_by_word_counts (text : string) :
  let pos := occurring positive_words text in
  let neg := occurring negative_words text in
  (forall e : Py.exn,
     detect_emotion (__init__ (Py.Raise e)) text
     = Py.Ok (_basic_sentiment_analysis text)) /\
  ((neg < pos)%nat ->
   _basic_sentiment_analysis text = mkEmotionResult "happy" 0.7 0.6) /\
  ((pos < neg)%nat ->
   _basic_sentiment_analysis text = mkEmotionResult "angry" 0.7 0.6) /\
  (pos = neg ->
   _basic_sentiment_analysis text = mkEmotionResult "neutral" 0.8 0.3) /\
  _basic_sentiment_analysis "This is a great and wonderful day"
  = mkEmotionResult "happy" 0.7 0.6 /\
  _basic_sentiment_analysis "I hate this awful terrible mess"
  = mkEmotionResult "angry" 0.7 0.6.
Proof.
  intros pos neg. split; [reflexivity |].
  assert (E : _basic_sentiment_analysis text
              = if (Z.of_nat neg <? Z.of_nat pos)%Z
                then mkEmotionResult "happy" 0.7 0.6
                else if (Z.of_nat pos <? Z.of_nat neg)%Z
                     then mkEmotionResult "angry" 0.7 0.6
                     else mkEmotionResult "neutral" 0.8 0.3).
  { unfold _basic_sentiment_analysis. rewrite !sum_ones_if_count. reflexivity. }
  rewrite E.
  repeat split; try reflexivity; intros H.
  - destruct (Z.ltb_spec (Z.of_nat neg) (Z.of_nat pos)); [reflexivity | lia].
  - destruct (Z.ltb_spec (Z.of_nat neg) (Z.of_nat pos)); [lia |].
    destruct (Z.ltb_spec (Z.of_nat pos) (Z.of_nat neg)); [reflexivity | lia].
  - destruct (Z.ltb_spec (Z.of_nat neg) (Z.of_nat pos)); [lia |].
    destruct (Z.ltb_spec (Z.of_nat pos) (Z.of_nat neg)); [lia | reflexivity].
Qed.

Lemma fallback_by_word_counts_witness :
  _basic_sentiment_analysis "GOOD but SAD and AWFUL"
  = mkEmotionResult "angry" 0.7 0.6 /\
  _basic_sentiment_analysis "what a Happy, happy day"
  = mkEmotionResult "happy" 0.7 0.6 /\
  _basic_sentiment_analysis "good good bad"
  = mkEmotionResult "neutral" 0.8 0.3.
Proof.
  split; [| split].
  - destruct (fallback_by_word_counts "GOOD but SAD and AWFUL")
      as (_ & _ & H & _).
    apply H. vm_compute. lia.
  - destruct (fallback_by_word_counts "what a Happy, happy day")
      as (_ & H & _).
    apply H. vm_compute. lia.
  - destruct (fallback_by_word_counts "good good bad") as (_ & _ & _ & H & _).
    apply H. reflexivity.
Defined.

(** ** Classifier failures *)

Lemma intensity_returns (text : string) (c : Q) :
  _calculate_intensity text c
  = Py.Ok (Py.max 0.1
             (Py.min 1.0 (final_score high_markers medium_markers text c))).
Proof.
  unfold _calculate_intensity, intensity_markers.
  apply calculate_intensity_with_unfold.
Qed.

(** The [try] block returns only on a well-formed classifier output, with
    the mapped label, the score and the estimate. *)
Lemma detect_try_returns_inv (self : EmotionDetector) (clf : classifier_fn)
    (text : string) (r : EmotionResult) :
  detect_emotion_try self clf text = Py.Ok r ->
  exists entry rest label c emap,
    clf text = Py.Ok (PList (PDict entry :: rest)) /\
    assoc "label" entry = Some (PStr label) /\
    assoc "score" entry = Some (PNum c) /\
    emotions_map self = Some emap /\
    _calculate_intensity text c = Py.Ok (intensity r) /\
    emotion r = Py.get emap (Str.lower label) "neutral" /\
    confidence r = c.
Proof.
  unfold detect_emotion_try, getattr_emotions_map. intros H.
  destruct (clf text) as [v | e]; [| discriminate H].
  cbn [Py.bind] in H.
  destruct v as [| q | s | items | items]; cbn in H;
    try discriminate H.
  - destruct s; discriminate H.
  - destruct items as [| first rest]; [discriminate H |].
    cbn [Py.bind] in H.
    destruct first as [| q | s | l | entry]; try discriminate H.
    cbn [subscript Py.bind] in H.
    destruct (assoc "label" entry) as [label |] eqn:El; [| discriminate H].
    cbn [Py.bind] in H.
    destruct label as [| q | label | l | d]; try discriminate H.
    cbn [call_lower Py.bind] in H.
    destruct (assoc "score" entry) as [score |] eqn:Es; [| discriminate H].
    cbn [Py.bind] in H.
    destruct (emotions_map self) as [emap |]; [| discriminate H].
    cbn [Py.bind] in H.
    destruct score as [| c | s | l | d]; try discriminate H.
    rewrite intensity_returns in H. cbn [Py.bind] in H.
    inversion H; subst r; clear H. cbn [intensity emotion confidence].
    exists entry, rest, label, c, emap.
    rewrite intensity_returns. auto 10.
Qed.

Lemma detect_try_returns_well_formed (self : EmotionDetector)
    (clf : classifier_fn) (text : string) (r : EmotionResult) :
  detect_emotion_try self clf text = Py.Ok r ->
  exists v, clf text = Py.Ok v /\ well_formed v.
Proof.
  intros H. apply detect_try_returns_inv in H.
  destruct H as (entry & rest & label & c & emap & Hc & Hl & Hs & _).
  eexists. split; [exact Hc |]. exists entry, rest, label, c. auto.
Qed.

Lemma detect_try_well_formed (self : EmotionDetector) (clf : classifier_fn)
    (text : string) (entry : list (string * pyval)) (rest : list pyval)
    (label : string) (score : Q) (emap : gmap string string) :
  clf text = Py.Ok (PList (PDict entry :: rest)) ->
  assoc "label" entry = Some (PStr label) ->
  assoc "score" entry = Some (PNum score) ->
  emotions_map self = Some emap ->
  exists i,
    _calculate_intensity text score = Py.Ok i /\
    detect_emotion_try self clf text
    = Py.Ok (mkEmotionResult (Py.get emap (Str.lower label) "neutral")
                             score i).
Proof.
  intros Hc Hl Hs Hm. eexists. split; [apply intensity_returns |].
  unfold detect_emotion_try, getattr_emotions_map.
  rewrite Hc. cbn [Py.bind subscript0 subscript]. rewrite Hl.
  cbn [Py.bind call_lower]. rewrite Hs, Hm. cbn [Py.bind].
  rewrite intensity_returns. reflexivity.
Qed.

(** C9: emotion detection always returns an [EmotionResult] and never
    raises; whenever the classifier is missing (its load failed), raises
    during the call, or returns a malformed output, the result is the one
    of the fallback heuristic. *)
Theorem classifier_failure_falls_back (self : EmotionDetector)
    (text : string) :
  (exists r, detect_emotion self text = Py.Ok r) /\
  (classifier_fails self text ->
   detect_emotion self text = Py.Ok (_basic_sentiment_analysis text)) /\
  (forall e : Py.exn,
     classifier_fails (__init__ (Py.Raise e)) text /\
     detect_emotion (__init__ (Py.Raise e)) text
     = Py.Ok (_basic_sentiment_analysis text)).
Proof.
  unfold detect_emotion, classifier_fails.
  split; [| split].
  - destruct (classifier self) as [clf |]; [| eexists; reflexivity].
    destruct (detect_emotion_try self clf text); eexists; reflexivity.
  - destruct (classifier self) as [clf |]; [| reflexivity].
    intros Hf.
    destruct (detect_emotion_try self clf text) as [r | e] eqn:E;
      [| reflexivity].
    apply detect_try_returns_well_formed in E. destruct E as (v & Hv & Hw).
    rewrite Hv in Hf. contradiction.
  - intros e. split; [exact I | reflexivity].
Qed.

Lemma classifier_failure_falls_back_witness :
  let broken : classifier_fn :=
    fun _ => Py.Ok (PList [PDict [("label", PStr "joy")]]) in
  detect_emotion (__init__ (Py.Ok broken)) "I hate this awful terrible mess"
  = Py.Ok (mkEmotionResult "angry" 0.7 0.6).
Proof.
  intros broken.
  destruct (classifier_failure_falls_back (__init__ (Py.Ok broken))
              "I hate this awful terrible mess") as (_ & H & _).
  apply H. cbn. intros (entry & rest & label & score & E & _ & Hs).
  inversion E; subst. discriminate Hs.
Defined.

(** The classifier path on the example of the specification: label
    "sadness" with score 0.85 on "I feel down today." *)
Example detect_sadness :
  process_text
    (__init__ (Py.Ok (fun _ =>
       Py.Ok (PList [PDict [("label", PStr "sadness"); ("score", PNum 0.85)]]))))
    "I feel down today."
  = Py.Ok (mkEmotionResult "sad" 0.85 0.85,
           _apply_intensity_scaling (mkVoiceParameters 160 (-10) 0.7 "none") 0.85)
  /\ rate (_apply_intensity_scaling
             (mkVoiceParameters 160 (-10) 0.7 "none") 0.85) = 143%Z.
Proof. split; reflexivity. Qed.

(** ** The pipeline end to end *)

Lemma intensity_in_range (text : string) (c i : Q) :
  _calculate_intensity text c = Py.Ok i -> 0.1 <= i <= 1.0.
Proof.
  rewrite intensity_returns. intros H. inversion H; subst i.
  apply clamp_bounds. lra.
Qed.

Lemma fallback_intensity (text : string) :
  0.1 <= intensity (_basic_sentiment_analysis text) <= 1.0.
Proof.
  unfold _basic_sentiment_analysis.
  repeat match goal with
         | |- context [(?a <? ?b)%Z] => destruct (a <? b)%Z
         end; cbn [intensity]; lra.
Qed.

Lemma detect_emotion_returns (self : EmotionDetector) (text : string) :
  exists r, detect_emotion self text = Py.Ok r /\ 0.1 <= intensity r <= 1.0.
Proof.
  unfold detect_emotion.
  destruct (classifier self) as [clf |].
  - destruct (detect_emotion_try self clf text) as [r | e] eqn:E.
    + exists r. split; [reflexivity |].
      apply detect_try_returns_inv in E.
      destruct E as (? & ? & ? & c & ? & _ & _ & _ & _ & Hi & _).
      exact (intensity_in_range text c _ Hi).
    + eexists. split; [reflexivity | apply fallback_intensity].
  - eexists. split; [reflexivity | apply fallback_intensity].
Qed.

Lemma table_emphasis (e : string) :
  exists p, base_params_for _initialize_voice_mappings e = Py.Ok p /\
            valid_emphasis (emphasis p).
Proof.
  destruct (in_dec string_dec e (map fst voice_items)) as [H | H].
  - unfold voice_items in H. cbn [map fst In] in H.
    repeat (destruct H as [<- | H];
            [eexists; split; [reflexivity | unfold valid_emphasis; cbn; tauto] |]).
    destruct H.
  - eexists. unfold base_params_for. rewrite getitem_neutral.
    cbn [Py.bind]. unfold Py.get. rewrite (lookup_unknown e H).
    split; [reflexivity | left; reflexivity].
Qed.

(** Steps 1 to 3 of [process_text] return for every detector state and
    every text, with an intensity in [0.1,1.0] and voice parameters within
    their bounds. *)
Lemma process_text_in_bounds (detector : EmotionDetector) (text : string) :
  exists r p,
    process_text detector text = Py.Ok (r, p) /\
    0.1 <= intensity r <= 1.0 /\ in_bounds p.
Proof.
  unfold process_text.
  destruct (detect_emotion_returns detector text) as (r & Hr & Hi).
  destruct (table_emphasis (emotion r)) as (b & Hb & He).
  rewrite Hr. cbn [Py.bind]. rewrite Hb. cbn [Py.bind].
  do 2 eexists. split; [reflexivity |]. split; [exact Hi |].
  apply scaling_clamps. exact He.
Qed.

(** * Further properties of the code *)

(** ** Intensity scaling: direction and monotonicity *)

Lemma int_ge (z : Z) (x : Q) : inject_Z z <= x -> (z <= Py.int x)%Z.
Proof.
  intros H. destruct (int_truncation x) as [Hp Hn].
  destruct (Qlt_le_dec x 0) as [Hx | Hx].
  - assert (Hx' : x <= 0) by lra. specialize (Hn Hx').
    rewrite Zle_Qle. lra.
  - specialize (Hp Hx).
    assert (L : inject_Z z < inject_Z (Py.int x + 1)).
    { rewrite inject_Z_plus. change (inject_Z 1) with 1. lra. }
    rewrite <- Zlt_Qlt in L. lia.
Qed.

Lemma int_le (z : Z) (x : Q) : x <= inject_Z z -> (Py.int x <= z)%Z.
Proof.
  intros H. destruct (int_truncation x) as [Hp Hn].
  destruct (Qlt_le_dec 0 x) as [Hx | Hx].
  - assert (Hx' : 0 <= x) by lra. specialize (Hp Hx').
    rewrite Zle_Qle. lra.
  - specialize (Hn Hx).
    assert (L : inject_Z (Py.int x + -1) < inject_Z z).
    { rewrite inject_Z_plus. change (inject_Z (-1)) with (-1). lra. }
    rewrite <- Zlt_Qlt in L. lia.
Qed.

Lemma int_monotone (x y : Q) : x <= y -> (Py.int x <= Py.int y)%Z.
Proof.
  intros H. destruct (Qlt_le_dec x 0) as [Hx | Hx].
  - apply int_le. destruct (int_truncation y) as [Hp Hn].
    destruct (Qlt_le_dec y 0) as [Hy | Hy].
    + assert (Hy' : y <= 0) by lra. specialize (Hn Hy'). lra.
    + assert (Z0 : (0 <= Py.int y)%Z) by (apply int_ge; exact Hy).
      rewrite Zle_Qle in Z0. change (inject_Z 0) with 0 in Z0. lra.
  - apply int_ge. destruct (int_truncation x) as [Hp _].
    specialize (Hp Hx). lra.
Qed.

Lemma scaling_volume (b : VoiceParameters) (i : Q) :
  volume (_apply_intensity_scaling b i)
  = Py.max 0.1 (Py.min 1.0 (Py.min 1.0 (volume b + (i - 0.5) * 0.2))).
Proof. reflexivity. Qed.

Lemma scaling_pitch (b : VoiceParameters) (i : Q) :
  pitch (_apply_intensity_scaling b i)
  = Py.max (-50) (Py.min 50 (pitch b * (1 + i * 0.5))).
Proof. reflexivity. Qed.

(** The rate is pushed away from the neutral 200 words per minute, never
    toward it: for a base rate within [100,300] and a non-negative
    intensity, a base rate of at least 200 is not lowered and a base rate
    of at most 200 is not raised. *)
Theorem scaling_amplifies_rate_deviation (b : VoiceParameters) (i : Q) :
  (100 <= rate b <= 300)%Z -> 0 <= i ->
  ((200 <= rate b)%Z -> (rate b <= rate (_apply_intensity_scaling b i))%Z) /\
  ((rate b <= 200)%Z -> (rate (_apply_intensity_scaling b i) <= rate b)%Z).
Proof.
  intros Hr Hi. rewrite scaling_rate. unfold raw_rate.
  split; intros H.
  - assert (Hd : 0 <= inject_Z (rate b - 200)).
    { change 0 with (inject_Z 0). rewrite <- Zle_Qle. lia. }
    assert (Hp : 0 <= inject_Z (rate b - 200) * i)
      by (apply Qmult_le_0_compat; assumption).
    assert (G : (rate b <= Py.int (inject_Z (rate b)
                   + inject_Z (rate b - 200) * i * 0.5))%Z).
    { apply int_ge. set (p := inject_Z (rate b - 200) * i) in *. lra. }
    lia.
  - assert (Hd : 0 <= inject_Z (200 - rate b)).
    { change 0 with (inject_Z 0). rewrite <- Zle_Qle. lia. }
    assert (Hp : 0 <= inject_Z (200 - rate b) * i)
      by (apply Qmult_le_0_compat; assumption).
    assert (E : inject_Z (rate b - 200) * i == - (inject_Z (200 - rate b) * i)).
    { unfold Z.sub. rewrite !inject_Z_plus, !inject_Z_opp. ring. }
    assert (G : (Py.int (inject_Z (rate b)
                   + inject_Z (rate b - 200) * i * 0.5) <= rate b)%Z).
    { apply int_le. set (p := inject_Z (200 - rate b) * i) in *.
      set (q := inject_Z (rate b - 200) * i) in *. lra. }
    lia.
Qed.

Lemma scaling_amplifies_rate_deviation_witness :
  (220 <= rate (_apply_intensity_scaling
                  (mkVoiceParameters 220 10 0.95 "strong") 0.9))%Z /\
  (rate (_apply_intensity_scaling
           (mkVoiceParameters 160 (-10) 0.7 "none") 0.9) <= 160)%Z.
Proof.
  split.
  - apply (proj1 (scaling_amplifies_rate_deviation
                    (mkVoiceParameters 220 10 0.95 "strong") 0.9
                    ltac:(cbn; lia) ltac:(lra))).
    cbn. lia.
  - apply (proj2 (scaling_amplifies_rate_deviation
                    (mkVoiceParameters 160 (-10) 0.7 "none") 0.9
                    ltac:(cbn; lia) ltac:(lra))).
    cbn. lia.
Defined.

(** A higher intensity never gives a lower volume, never a lower rate for a
    base rate of at least 200, and never a higher rate for a base rate of at
    most 200. *)
Theorem scaling_monotone_in_intensity (b : VoiceParameters) (i j : Q) :
  i <= j ->
  volume (_apply_intensity_scaling b i)
  <= volume (_apply_intensity_scaling b j) /\
  ((200 <= rate b)%Z ->
   (rate (_apply_intensity_scaling b i)
    <= rate (_apply_intensity_scaling b j))%Z) /\
  ((rate b <= 200)%Z ->
   (rate (_apply_intensity_scaling b j)
    <= rate (_apply_intensity_scaling b i))%Z).
Proof.
  intros Hij. split; [rewrite !scaling_volume; minmax_lra |].
  rewrite !scaling_rate. unfold raw_rate. split; intros H.
  - assert (Hd : 0 <= inject_Z (rate b - 200)).
    { change 0 with (inject_Z 0). rewrite <- Zle_Qle. lia. }
    assert (G : (Py.int (inject_Z (rate b) + inject_Z (rate b - 200) * i * 0.5)
                 <= Py.int (inject_Z (rate b)
                            + inject_Z (rate b - 200) * j * 0.5))%Z).
    { apply int_monotone. set (d := inject_Z (rate b - 200)) in *. nra. }
    lia.
  - assert (Hd : inject_Z (rate b - 200) <= 0).
    { change 0 with (inject_Z 0). rewrite <- Zle_Qle. lia. }
    assert (G : (Py.int (inject_Z (rate b) + inject_Z (rate b - 200) * j * 0.5)
                 <= Py.int (inject_Z (rate b)
                            + inject_Z (rate b - 200) * i * 0.5))%Z).
    { apply int_monotone. set (d := inject_Z (rate b - 200)) in *. nra. }
    lia.
Qed.

Lemma scaling_monotone_in_intensity_witness :
  volume (_apply_intensity_scaling surprised_params 0.2)
  <= volume (_apply_intensity_scaling surprised_params 0.9) /\
  (rate (_apply_intensity_scaling surprised_params 0.2)
   <= rate (_apply_intensity_scaling surprised_params 0.9))%Z.
Proof.
  assert (H : 0.2 <= 0.9) by lra.
  destruct (scaling_monotone_in_intensity surprised_params 0.2 0.9 H)
    as (Hv & Hr & _).
  split; [exact Hv |]. apply Hr. cbn. lia.
Defined.

(** The volume is the base volume plus (i - 0.5) * 0.2 clamped to
    [0.1,1.0] (the [min] inside the constructor changes nothing); for a
    base volume within [0.1,1.0] it is not lowered when the intensity is at
    least 0.5 and not raised when it is at most 0.5. *)
Theorem scaling_volume_midpoint (b : VoiceParameters) (i : Q) :
  volume (_apply_intensity_scaling b i)
  == Qmax 0.1 (Qmin 1.0 (volume b + (i - 0.5) * 0.2)) /\
  (0.1 <= volume b <= 1.0 ->
   (0.5 <= i -> volume b <= volume (_apply_intensity_scaling b i)) /\
   (i <= 0.5 -> volume (_apply_intensity_scaling b i) <= volume b)).
Proof.
  rewrite scaling_volume. split; [minmax_lra |].
  intros Hv. split; intros Hi; minmax_lra.
Qed.

Lemma scaling_volume_midpoint_witness :
  0.9 <= volume (_apply_intensity_scaling surprised_params 0.75) /\
  volume (_apply_intensity_scaling surprised_params 0.25) <= 0.9.
Proof.
  assert (Hv : 0.1 <= volume surprised_params <= 1.0) by (cbn; lra).
  destruct (scaling_volume_midpoint surprised_params 0.75) as (_ & H1).
  destruct (scaling_volume_midpoint surprised_params 0.25) as (_ & H2).
  split.
  - apply (proj1 (H1 Hv)). lra.
  - apply (proj2 (H2 Hv)). lra.
Defined.

(** The pitch is the base pitch times (1 + i * 0.5) clamped to [-50,50];
    for a base pitch within [-50,50] and a non-negative intensity its sign
    is kept and it does not move toward zero. *)
Theorem scaling_pitch_amplified (b : VoiceParameters) (i : Q) :
  pitch (_apply_intensity_scaling b i)
  == Qmax (-50) (Qmin 50 (pitch b * (1 + i * 0.5))) /\
  (-50 <= pitch b <= 50 -> 0 <= i ->
   (0 <= pitch b -> pitch b <= pitch (_apply_intensity_scaling b i)) /\
   (pitch b <= 0 -> pitch (_apply_intensity_scaling b i) <= pitch b)).
Proof.
  rewrite scaling_pitch. split; [minmax_lra |].
  intros Hp Hi.
  assert (E : pitch b * (1 + i * 0.5) == pitch b + pitch b * i * 0.5) by ring.
  split; intros Hs.
  - assert (Hn : 0 <= pitch b * i) by (apply Qmult_le_0_compat; assumption).
    set (t := pitch b * (1 + i * 0.5)) in *. set (q := pitch b * i) in *.
    clearbody t q. minmax_lra.
  - assert (Hn : 0 <= (- pitch b) * i)
      by (apply Qmult_le_0_compat; [lra | assumption]).
    assert (E' : (- pitch b) * i == - (pitch b * i)) by ring.
    set (t := pitch b * (1 + i * 0.5)) in *. set (q := pitch b * i) in *.
    set (q' := (- pitch b) * i) in *.
    clearbody t q q'. minmax_lra.
Qed.

Lemma scaling_pitch_amplified_witness :
  12 <= pitch (_apply_intensity_scaling surprised_params 0.75).
Proof.
  destruct (scaling_pitch_amplified surprised_params 0.75) as (_ & H).
  apply H; cbn; lra.
Defined.



(** ** Strings: lower-casing and the substring test *)

Lemma lower_char_fixed (c : ascii) :
  Str.lower_char (Str.lower_char c) = Str.lower_char c /\
  Str.isupper (Str.lower_char c) = false.
Proof. destruct c as [[] [] [] [] [] [] [] []]; split; reflexivity. Qed.

Lemma lower_idempotent (s : string) : Str.lower (Str.lower s) = Str.lower s.
Proof.
  induction s as [| c s IH]; cbn; [reflexivity |].
  rewrite IH, (proj1 (lower_char_fixed c)). reflexivity.
Qed.

Lemma lower_no_upper (s : string) : Str.count_upper (Str.lower s) = 0%Z.
Proof.
  induction s as [| c s IH]; cbn; [reflexivity |].
  rewrite IH, (proj2 (lower_char_fixed c)). reflexivity.
Qed.


Lemma append_empty (b : string) : "" ++ b = b.
Proof. reflexivity. Qed.







(** ** Intensity estimation: what raises the estimate *)

Lemma count_upper_range (s : string) :
  (0 <= Str.count_upper s <= Str.len s)%Z.
Proof.
  unfold Str.len. induction s as [| c s IH]; cbn [Str.count_upper String.length].
  - lia.
  - destruct (Str.isupper c); lia.
Qed.

Lemma shouting_iff (text : string) :
  shouting text = true
  <-> (3 * Z.max 1 (Str.len text) < 10 * Str.count_upper text)%Z.
Proof.
  unfold shouting, caps_ratio. rewrite ltb_lt.
  set (a := Str.count_upper text). set (b := Z.max 1 (Str.len text)).
  assert (Hb : 0 < inject_Z b).
  { change 0 with (inject_Z 0). rewrite <- Zlt_Qlt. lia. }
  assert (E : inject_Z a / inject_Z b * inject_Z b == inject_Z a).
  { field. lra. }
  assert (Z10 : (3 * b < 10 * a)%Z <-> 0.3 * inject_Z b < inject_Z a).
  { rewrite Zlt_Qlt, !inject_Z_mult.
    change (inject_Z 3) with 3. change (inject_Z 10) with 10. split; lra. }
  rewrite Z10. set (x := inject_Z a / inject_Z b) in *. clearbody x.
  split; intros H.
  - assert (L : 0.3 * inject_Z b < x * inject_Z b)
      by (apply Qmult_lt_r; assumption).
    lra.
  - apply (Qmult_lt_r _ _ (inject_Z b) Hb). lra.
Qed.



Lemma matched_count_nonneg (text : string) (l : list string) :
  0 <= inject_Z (matched_count text l).
Proof. apply count_nonneg. Qed.

(** The estimate never falls below the clamped base confidence
    max(0.1, min(1.0, c)), and a larger base confidence never gives a
    smaller estimate for the same text. *)
Theorem intensity_monotone_in_confidence (text : string) (c1 c2 : Q) :
  c1 <= c2 ->
  exists r1 r2 : Q,
    _calculate_intensity text c1 = Py.Ok r1 /\
    _calculate_intensity text c2 = Py.Ok r2 /\
    r1 <= r2 /\ Qmax 0.1 (Qmin 1.0 c1) <= r1.
Proof.
  intros Hc. rewrite !intensity_returns.
  do 2 eexists. split; [reflexivity |]. split; [reflexivity |].
  rewrite !intensity_closed_form. unfold intensity_formula.
  pose proof (matched_count_nonneg text high_markers) as Hh.
  pose proof (matched_count_nonneg text medium_markers) as Hm.
  set (a := inject_Z (matched_count text high_markers)) in *.
  set (b := inject_Z (matched_count text medium_markers)) in *.
  clearbody a b.
  split; destruct (shouting text); cbv iota; minmax_lra.
Qed.

Lemma intensity_monotone_in_confidence_witness :
  exists r1 r2 : Q,
    _calculate_intensity "what a good day" 0.4 = Py.Ok r1 /\
    _calculate_intensity "what a good day" 0.7 = Py.Ok r2 /\
    r1 <= r2 /\ Qmax 0.1 (Qmin 1.0 0.4) <= r1.
Proof.
  apply (intensity_monotone_in_confidence "what a good day" 0.4 0.7). lra.
Defined.







Lemma shouting_lower (text : string) : shouting (Str.lower text) = false.
Proof.
  destruct (shouting (Str.lower text)) eqn:E; [| reflexivity].
  apply shouting_iff in E. rewrite lower_no_upper in E. lia.
Qed.

(** Lower-casing a text never raises its estimate: the lower-cased text
    matches the same high and medium markers, its estimate is at most the
    estimate of the text itself, and the two are equal when the text gets
    no caps bonus. *)
Theorem intensity_of_lowercased_text (text : string) (c : Q) :
  matched (Str.lower text) high_markers = matched text high_markers /\
  matched (Str.lower text) medium_markers = matched text medium_markers /\
  exists r r' : Q,
    _calculate_intensity text c = Py.Ok r /\
    _calculate_intensity (Str.lower text) c = Py.Ok r' /\
    r' <= r /\ (shouting text = false -> r' = r).
Proof.
  unfold matched. rewrite lower_idempotent.
  split; [reflexivity |]. split; [reflexivity |].
  rewrite !intensity_returns. do 2 eexists.
  split; [reflexivity |]. split; [reflexivity |].
  unfold final_score. rewrite lower_idempotent, shouting_lower.
  set (s := fold_left _ medium_markers _). clearbody s.
  split.
  - destruct (shouting text); minmax_lra.
  - intros ->. reflexivity.
Qed.

Lemma intensity_of_lowercased_text_witness :
  _calculate_intensity (Str.lower "So Good") 0.5
  = _calculate_intensity "So Good" 0.5.
Proof.
  destruct (intensity_of_lowercased_text "So Good" 0.5)
    as (_ & _ & r & r' & Hr & Hr' & _ & He).
  rewrite Hr, Hr'. f_equal. apply He. reflexivity.
Defined.

(** ** Emotion detection: labels and the fallback *)

Lemma emotions_map_range (k : string) :
  In (Py.get emotions_map_literal k "neutral")
     ["happy"; "sad"; "angry"; "worried"; "surprised"; "disgusted"; "neutral"].
Proof.
  unfold Py.get. destruct (emotions_map_literal !! k) as [v |] eqn:E.
  - unfold emotions_map_literal, Py.dict in E. cbn [fold_left fst snd] in E.
    repeat (apply lookup_insert_Some in E;
            destruct E as [[_ <-] | [_ E]]; [cbn; tauto |]).
    rewrite lookup_empty in E. discriminate E.
  - cbn. tauto.
Qed.

Lemma emotions_map_unknown (k : string) :
  ~ In k ["joy"; "sadness"; "anger"; "fear"; "surprise"; "disgust"; "neutral"] ->
  Py.get emotions_map_literal k "neutral" = "neutral".
Proof.
  intros H. unfold Py.get, emotions_map_literal, Py.dict.
  cbn [fold_left fst snd].
  rewrite !lookup_insert_ne by (intros <-; apply H; cbn; tauto).
  rewrite lookup_empty. reflexivity.
Qed.

Lemma fallback_three (text : string) :
  _basic_sentiment_analysis text = mkEmotionResult "happy" 0.7 0.6 \/
  _basic_sentiment_analysis text = mkEmotionResult "angry" 0.7 0.6 \/
  _basic_sentiment_analysis text = mkEmotionResult "neutral" 0.8 0.3.
Proof.
  unfold _basic_sentiment_analysis.
  repeat match goal with
         | |- context [(?a <? ?b)%Z] => destruct (a <? b)%Z
         end; tauto.
Qed.

Lemma detect_emotion_fallback (self : EmotionDetector) (text : string) :
  classifier_fails self text ->
  detect_emotion self text = Py.Ok (_basic_sentiment_analysis text).
Proof.
  unfold detect_emotion, classifier_fails.
  destruct (classifier self) as [clf |]; [| reflexivity].
  intros Hf.
  destruct (detect_emotion_try self clf text) as [r | e] eqn:E;
    [| reflexivity].
  apply detect_try_returns_well_formed in E. destruct E as (v & Hv & Hw).
  rewrite Hv in Hf. contradiction.
Qed.

(** Whatever the outcome of loading the classifier and whatever the
    classifier returns, the detected emotion is one of happy, sad, angry,
    worried, surprised, disgusted and neutral: "excited" is never detected,
    so its table entry is never used by [process_text]. *)
Theorem detected_emotion_range (load : Py.res classifier_fn) (text : string) :
  exists r : EmotionResult,
    detect_emotion (__init__ load) text = Py.Ok r /\
    In (emotion r)
       ["happy"; "sad"; "angry"; "worried"; "surprised"; "disgusted";
        "neutral"] /\
    emotion r <> "excited".
Proof.
  assert (G : exists r, detect_emotion (__init__ load) text = Py.Ok r /\
              In (emotion r)
                 ["happy"; "sad"; "angry"; "worried"; "surprised";
                  "disgusted"; "neutral"]).
  { destruct load as [clf | e]; cbn [__init__].
    - unfold detect_emotion. cbn [classifier].
      destruct (detect_emotion_try _ clf text) as [r | e] eqn:E.
      + exists r. split; [reflexivity |].
        apply detect_try_returns_inv in E.
        destruct E as (? & ? & label & ? & emap & _ & _ & _ & Hm & _ & He & _).
        cbn [emotions_map] in Hm. inversion Hm; subst emap.
        rewrite He. apply emotions_map_range.
      + eexists. split; [reflexivity |].
        destruct (fallback_three text) as [-> | [-> | ->]]; cbn; tauto.
    - eexists. split; [reflexivity |].
      destruct (fallback_three text) as [-> | [-> | ->]]; cbn; tauto. }
  destruct G as (r & Hr & Hin). exists r. split; [exact Hr |].
  split; [exact Hin |]. intros E. rewrite E in Hin. cbn in Hin.
  repeat (destruct Hin as [Hin | Hin]; [discriminate Hin |]). exact Hin.
Qed.

(** On a well-formed classifier output the result carries the label of the
    first list item, lower-cased and mapped through the label table
    (neutral for a label outside the table), the score unchanged as the
    confidence, and the intensity estimated from the text and the score;
    the other items of the list are ignored. *)
Theorem label_normalisation (clf : classifier_fn) (text : string)
    (entry : list (string * pyval)) (rest : list pyval)
    (label : string) (score : Q) :
  clf text = Py.Ok (PList (PDict entry :: rest)) ->
  assoc "label" entry = Some (PStr label) ->
  assoc "score" entry = Some (PNum score) ->
  exists i : Q,
    _calculate_intensity text score = Py.Ok i /\
    detect_emotion (__init__ (Py.Ok clf)) text
    = Py.Ok (mkEmotionResult
               (Py.get emotions_map_literal (Str.lower label) "neutral")
               score i) /\
    (~ In (Str.lower label)
          ["joy"; "sadness"; "anger"; "fear"; "surprise"; "disgust";
           "neutral"] ->
     Py.get emotions_map_literal (Str.lower label) "neutral" = "neutral").
Proof.
  intros Hc Hl Hs.
  destruct (detect_try_well_formed (__init__ (Py.Ok clf)) clf text entry rest
              label score emotions_map_literal Hc Hl Hs eq_refl)
    as (i & Hi & Ht).
  exists i. split; [exact Hi |]. split.
  - unfold detect_emotion.
    change (classifier (__init__ (Py.Ok clf))) with (Some clf).
    cbv beta iota. rewrite Ht. reflexivity.
  - apply emotions_map_unknown.
Qed.

Lemma label_normalisation_witness :
  let clf : classifier_fn :=
    fun _ => Py.Ok (PList [PDict [("label", PStr "FEAR"); ("score", PNum 1.5)];
                           PNone]) in
  exists i : Q,
    detect_emotion (__init__ (Py.Ok clf)) "hm"
    = Py.Ok (mkEmotionResult "worried" 1.5 i).
Proof.
  intros clf.
  destruct (label_normalisation clf "hm"
              [("label", PStr "FEAR"); ("score", PNum 1.5)] [PNone]
              "FEAR" 1.5 eq_refl eq_refl eq_refl) as (i & _ & H & _).
  exists i. exact H.
Defined.

(** The fallback heuristic ignores the case of the text. *)
Theorem fallback_ignores_case (text : string) :
  _basic_sentiment_analysis (Str.lower text) = _basic_sentiment_analysis text.
Proof.
  unfold _basic_sentiment_analysis. rewrite lower_idempotent. reflexivity.
Qed.

(** ** The pipeline on the fallback path *)

(** When the classifier is missing, raises or returns a malformed output,
    the voice parameters never carry an emphasis, although the table gives
    "strong" to happy and angry: the fallback intensities 0.6 and 0.3 do not
    exceed the 0.6 threshold.  The rate is 226 (happy) or 200. *)
Theorem fallback_voice_never_emphasised (self : EmotionDetector)
    (text : string) :
  classifier_fails self text ->
  exists p : VoiceParameters,
    process_text self text = Py.Ok (_basic_sentiment_analysis text, p) /\
    emphasis p = "none" /\ (rate p = 226 \/ rate p = 200)%Z.
Proof.
  intros Hf. unfold process_text.
  rewrite (detect_emotion_fallback self text Hf). cbn [Py.bind].
  destruct (fallback_three text) as [-> | [-> | ->]];
    eexists; (split; [reflexivity |]); split;
    try reflexivity; cbn; tauto.
Qed.

Lemma fallback_voice_never_emphasised_witness :
  exists p : VoiceParameters,
    process_text (__init__ (Py.Raise Py.ClassifierError))
                 "This is a great and wonderful day"
    = Py.Ok (_basic_sentiment_analysis "This is a great and wonderful day", p)
    /\ emphasis p = "none" /\ (rate p = 226 \/ rate p = 200)%Z.
Proof.
  apply (fallback_voice_never_emphasised
           (__init__ (Py.Raise Py.ClassifierError))
           "This is a great and wonderful day").
  exact I.
Defined.

(** ** Audio generation *)

(** Case analysis on the calls of [_generate_audio] that raise, in the
    order in which they are made. *)
Ltac audio_cases bk :=
  unfold Tts.try_except, Tts.bind, Tts.do_call, Tts.ret, Tts.raise,
    essential_calls;
  cbn [fst snd find app];
  repeat (match goal with
          | |- context [Tts.raises bk ?c] =>
              destruct (Tts.raises bk c) eqn:?
          | |- context [match Tts.voices bk with _ => _ end] =>
              destruct (Tts.voices bk) eqn:?
          end; cbn [fst snd find app]).

Lemma generate_audio_result (bk : Tts.backend) (text : string)
    (p : VoiceParameters) :
  snd (_generate_audio bk text p)
  = match find (Tts.raises bk) (essential_calls bk text p) with
    | Some c => Tts.Raised (Tts.AudioFailed (Tts.CallError c))
    | None => Tts.Returned (Tts.temp_name bk)
    end.
Proof.
  unfold _generate_audio, Tts.with_lock. cbn [snd].
  audio_cases bk; reflexivity.
Qed.

(** The calls that [_generate_audio] may make. *)
Lemma generate_audio_bracket (bk : Tts.backend) (text : string)
    (p : VoiceParameters) :
  exists middle : list Tts.event,
    fst (_generate_audio bk text p)
    = (Tts.Acquire :: middle ++ [Tts.Release])%list /\
    Forall (fun ev => exists c, ev = Tts.Call c /\
              (In c (essential_calls bk text p) \/ c = Tts.GetVoices \/
               exists id rest,
                 Tts.voices bk = id :: rest /\ c = Tts.SetVoice id))
           middle.
Proof.
  unfold _generate_audio, Tts.with_lock. cbn [fst].
  eexists. split; [reflexivity |].
  audio_cases bk;
    repeat (apply List.Forall_cons;
            [eexists; split; [reflexivity |]; cbn [In]; eauto 12 |]);
    apply List.Forall_nil.
Qed.

Lemma find_first {A : Type} (f : A -> bool) (l : list A) (x : A) :
  find f l = Some x ->
  exists before after,
    l = (before ++ x :: after)%list /\ f x = true /\
    forall y, In y before -> f y = false.
Proof.
  induction l as [| a l IH]; cbn [find]; [discriminate |].
  destruct (f a) eqn:E.
  - intros H. inversion H; subst a. exists [], l.
    split; [reflexivity |]. split; [exact E |]. intros y [].
  - intros H. destruct (IH H) as (before & after & -> & Hx & Hb).
    exists (a :: before), after. split; [reflexivity |].
    split; [exact Hx |]. intros y [<- | Hy]; [exact E | now apply Hb].
Qed.

(** [_generate_audio] returns the name of the temporary file exactly when
    none of its calls outside the voice selection raises; a failure of the
    voice selection is ignored.  Otherwise it raises the "Failed to
    generate audio" exception whose cause is the first such call, in the
    order in which they are made, that raises. *)
Theorem generate_audio_outcome (bk : Tts.backend) (text : string)
    (p : VoiceParameters) :
  (snd (_generate_audio bk text p) = Tts.Returned (Tts.temp_name bk)
   <-> forall c, In c (essential_calls bk text p) -> Tts.raises bk c = false) /\
  (forall path, snd (_generate_audio bk text p) = Tts.Returned path ->
                path = Tts.temp_name bk) /\
  (forall f, snd (_generate_audio bk text p) = Tts.Raised f ->
     exists c before after,
       essential_calls bk text p = (before ++ c :: after)%list /\
       (forall c', In c' before -> Tts.raises bk c' = false) /\
       Tts.raises bk c = true /\
       f = Tts.AudioFailed (Tts.CallError c)).
Proof.
  rewrite generate_audio_result.
  destruct (find (Tts.raises bk) (essential_calls bk text p)) as [c |] eqn:E.
  - pose proof (find_some _ _ E) as [Hin Hr].
    split; [split |]; [discriminate | | split].
    + intros H. rewrite (H c Hin) in Hr. discriminate Hr.
    + discriminate.
    + intros f Hf. inversion Hf.
      destruct (find_first _ _ _ E) as (before & after & El & _ & Hb).
      exists c, before, after. auto.
  - split; [split |]; [| reflexivity | split].
    + intros _ c Hin. exact (find_none _ _ E c Hin).
    + intros path H. now inversion H.
    + discriminate.
Qed.

Lemma generate_audio_outcome_witness :
  let bk := Tts.mkBackend
              (fun c => match c with
                        | Tts.GetVoices | Tts.SetVoice _ => true
                        | _ => false
                        end)
              ["english"] "/tmp/tmpabc.wav" in
  snd (_generate_audio bk "hello" surprised_params)
  = Tts.Returned "/tmp/tmpabc.wav".
Proof.
  intros bk.
  apply (proj1 (generate_audio_outcome bk "hello" surprised_params)).
  intros c Hc. cbn in Hc.
  repeat (destruct Hc as [<- | Hc]; [reflexivity |]). destruct Hc.
Defined.

Example generate_audio_first_failure :
  snd (_generate_audio
         (Tts.mkBackend
            (fun c => match c with
                      | Tts.NamedTemporaryFile | Tts.RunAndWait => true
                      | _ => false
                      end)
            ["english"] "/tmp/tmpabc.wav")
         "hello" surprised_params)
  = Tts.Raised (Tts.AudioFailed (Tts.CallError Tts.NamedTemporaryFile)).
Proof. reflexivity. Qed.

(** [_generate_audio] takes the lock first and releases it last, however
    it ends; in between it only makes calls, sets no other rate and volume
    than those of the parameters it was given, and saves no other text. *)
Theorem generate_audio_under_lock (bk : Tts.backend) (text : string)
    (p : VoiceParameters) :
  exists middle : list Tts.event,
    fst (_generate_audio bk text p)
    = (Tts.Acquire :: middle ++ [Tts.Release])%list /\
    ~ In Tts.Acquire middle /\ ~ In Tts.Release middle /\
    (forall r, In (Tts.Call (Tts.SetRate r)) middle -> r = rate p) /\
    (forall v, In (Tts.Call (Tts.SetVolume v)) middle -> v = volume p) /\
    (forall t n, In (Tts.Call (Tts.SaveToFile t n)) middle ->
                 t = text /\ n = Tts.temp_name bk).
Proof.
  destruct (generate_audio_bracket bk text p) as (middle & E & F).
  exists middle. split; [exact E |].
  rewrite List.Forall_forall in F.
  repeat split.
  - intros H. destruct (F _ H) as (c & Hc & _). discriminate Hc.
  - intros H. destruct (F _ H) as (c & Hc & _). discriminate Hc.
  - intros r H. destruct (F _ H) as (c & Hc & [Hin | [-> | (? & ? & _ & ->)]]);
      inversion Hc; subst c; try discriminate.
    cbn in Hin. repeat (destruct Hin as [Hin | Hin]; try discriminate Hin);
      [now inversion Hin | destruct Hin].
  - intros v H. destruct (F _ H) as (c & Hc & [Hin | [-> | (? & ? & _ & ->)]]);
      inversion Hc; subst c; try discriminate.
    cbn in Hin. repeat (destruct Hin as [Hin | Hin]; try discriminate Hin);
      [now inversion Hin | destruct Hin].
  - destruct (F _ H) as (c & Hc & [Hin | [-> | (? & ? & _ & ->)]]);
      inversion Hc; subst c; try discriminate.
    cbn in Hin. repeat (destruct Hin as [Hin | Hin]; try discriminate Hin);
      [now inversion Hin | destruct Hin].
  - destruct (F _ H) as (c & Hc & [Hin | [-> | (? & ? & _ & ->)]]);
      inversion Hc; subst c; try discriminate.
    cbn in Hin. repeat (destruct Hin as [Hin | Hin]; try discriminate Hin);
      [now inversion Hin | destruct Hin].
Qed.

Lemma process_text_audio_unfold (bk : Tts.backend) (detector : EmotionDetector)
    (text : string) :
  exists r p,
    process_text detector text = Py.Ok (r, p) /\
    0.1 <= intensity r <= 1.0 /\ in_bounds p /\
    fst (process_text_audio bk detector text) = fst (_generate_audio bk text p) /\
    snd (process_text_audio bk detector text)
    = match snd (_generate_audio bk text p) with
      | Tts.Returned path => Tts.Returned (r, p, path)
      | Tts.Raised f => Tts.Raised f
      end.
Proof.
  destruct (process_text_in_bounds detector text) as (r & p & Hp & Hi & Hb).
  exists r, p. split; [exact Hp |]. split; [exact Hi |]. split; [exact Hb |].
  unfold process_text_audio. rewrite Hp. unfold Tts.bind, Tts.ret.
  destruct (snd (_generate_audio bk text p)); cbn [fst snd];
    rewrite ?app_nil_r; split; reflexivity.
Qed.

(** Whatever the classifier and the engine do, every rate that
    [process_text] sets on the engine is within [100,300] and every volume
    within [0.1,1.0]. *)
Theorem audio_parameters_in_range (bk : Tts.backend)
    (detector : EmotionDetector) (text : string) :
  (forall r, In (Tts.Call (Tts.SetRate r))
                (fst (process_text_audio bk detector text)) ->
             (100 <= r <= 300)%Z) /\
  (forall v, In (Tts.Call (Tts.SetVolume v))
                (fst (process_text_audio bk detector text)) ->
             0.1 <= v <= 1.0).
Proof.
  destruct (process_text_audio_unfold bk detector text)
    as (r & p & _ & _ & (Hr & _ & Hv & _) & Ef & _).
  rewrite Ef.
  destruct (generate_audio_bracket bk text p) as (middle & E & F).
  rewrite E. rewrite List.Forall_forall in F.
  assert (G : forall c, In (Tts.Call c) (Tts.Acquire :: middle ++ [Tts.Release])%list ->
              In (Tts.Call c) middle).
  { intros c [Hc | Hc]; [discriminate Hc |].
    apply in_app_or in Hc. destruct Hc as [Hc | [Hc | []]];
      [exact Hc | discriminate Hc]. }
  split.
  - intros x H. apply G in H.
    destruct (F _ H) as (c & Hc & [Hin | [-> | (? & ? & _ & ->)]]);
      inversion Hc; subst c; try discriminate.
    cbn in Hin. repeat (destruct Hin as [Hin | Hin]; try discriminate Hin);
      [inversion Hin; subst x; exact Hr | destruct Hin].
  - intros x H. apply G in H.
    destruct (F _ H) as (c & Hc & [Hin | [-> | (? & ? & _ & ->)]]);
      inversion Hc; subst c; try discriminate.
    cbn in Hin. repeat (destruct Hin as [Hin | Hin]; try discriminate Hin);
      [inversion Hin; subst x; exact Hv | destruct Hin].
Qed.

Lemma audio_parameters_in_range_witness :
  let bk := Tts.mkBackend (fun _ => false) [] "/tmp/tmpabc.wav" in
  (100 <= 226 <= 300)%Z.
Proof.
  intros bk.
  apply (proj1 (audio_parameters_in_range bk
                  (__init__ (Py.Raise Py.ClassifierError))
                  "This is a great and wonderful day")).
  vm_compute. tauto.
Defined.

(** [process_text] can only fail in its audio step: detection, lookup and
    scaling always return, and the whole call returns their result with
    the name of the temporary file unless a call of the audio step outside
    the voice selection raises. *)
Theorem process_text_fails_only_in_audio (bk : Tts.backend)
    (detector : EmotionDetector) (text : string) :
  exists r p,
    process_text detector text = Py.Ok (r, p) /\
    snd (process_text_audio bk detector text)
    = match find (Tts.raises bk) (essential_calls bk text p) with
      | Some c => Tts.Raised (Tts.AudioFailed (Tts.CallError c))
      | None => Tts.Returned (r, p, Tts.temp_name bk)
      end.
Proof.
  destruct (process_text_audio_unfold bk detector text)
    as (r & p & Hp & _ & _ & _ & Es).
  exists r, p. split; [exact Hp |].
  rewrite Es, generate_audio_result.
  destruct (find _ _); reflexivity.
Qed.

(** ** The web routes *)

Lemma lstrip_whitespace (s : string) :
  all_whitespace (Str.lstrip s) = all_whitespace s.
Proof.
  induction s as [| c s IH]; [reflexivity |].
  cbn [Str.lstrip all_whitespace].
  destruct (Str.isspace c) eqn:E; [exact IH |].
  cbn [all_whitespace]. now rewrite E.
Qed.

Lemma rstrip_empty_iff (s : string) :
  Str.rstrip s = "" <-> all_whitespace s = true.
Proof.
  induction s as [| c s IH]; cbn [Str.rstrip all_whitespace].
  - split; reflexivity.
  - destruct (Str.rstrip s) as [| d r].
    + destruct (Str.isspace c); cbn [andb].
      * split; intros _; [now apply IH | reflexivity].
      * split; discriminate.
    + split; [discriminate |].
      intros H. apply andb_true_iff in H. destruct H as [_ H].
      apply IH in H. discriminate H.
Qed.

Lemma strip_empty_iff (s : string) :
  Str.strip s = "" <-> all_whitespace s = true.
Proof. unfold Str.strip. now rewrite rstrip_empty_iff, lstrip_whitespace. Qed.

Lemma eqb_empty (s : string) : String.eqb s "" = true <-> s = "".
Proof. apply String.eqb_eq. Qed.

Lemma request_text_empty (data : pyval) :
  request_text data = Py.Ok "" <-> no_text data.
Proof.
  unfold request_text, no_text. split.
  - destruct data as [| q | s | l | items]; try discriminate.
    destruct (assoc "text" items) as [v |] eqn:E.
    + destruct v as [| q | s | l | d]; try discriminate.
      intros H. assert (Hs : Str.strip s = "") by congruence.
      exists items. split; [reflexivity |].
      right. exists s. split; [exact E |]. now apply strip_empty_iff.
    + intros _. exists items. auto.
  - intros (items & -> & [E | (s & E & Hs)]); rewrite E.
    + reflexivity.
    + apply strip_empty_iff in Hs. now rewrite Hs.
Qed.

(** The route [/process] answers 400 "No text provided" exactly when the
    request body is a JSON object without a ["text"] entry or with a text
    of white space only; the engine is then not called and nothing is
    stored. *)
Theorem route_rejects_missing_text (bk : Tts.backend)
    (detector : EmotionDetector) (now : Q) (config : gmap string string)
    (get_json : Py.res pyval) :
  (snd (process_text_route bk detector now config get_json) = NoText
   <-> exists data, get_json = Py.Ok data /\ no_text data) /\
  (snd (process_text_route bk detector now config get_json) = NoText ->
   process_text_route bk detector now config get_json = ([], config, NoText)).
Proof.
  unfold process_text_route.
  destruct get_json as [data | e]; cbn [Py.bind].
  - destruct (request_text data) as [text | e] eqn:E.
    + destruct (String.eqb text "") eqn:B.
      * apply eqb_empty in B. subst text. apply request_text_empty in E.
        split; [| reflexivity]. split; [| reflexivity].
        intros _. exists data. auto.
      * assert (N : ~ no_text data).
        { intros H. apply request_text_empty in H. rewrite H in E.
          inversion E; subst text. discriminate B. }
        destruct (process_text_audio bk detector text) as [events [[[r p] a] | f]];
          (split; [split; [discriminate | intros (d & Hd & Hn); inversion Hd; subst d; contradiction] | discriminate]).
    + assert (N : ~ no_text data).
      { intros H. apply request_text_empty in H. rewrite H in E. discriminate E. }
      split; [split; [discriminate | intros (d & Hd & Hn); inversion Hd; subst d; contradiction] | discriminate].
  - split; [split; [discriminate | intros (d & Hd & _); discriminate Hd] | discriminate].
Qed.

Lemma route_rejects_missing_text_witness :
  let bk := Tts.mkBackend (fun _ => false) [] "/tmp/tmpabc.wav" in
  process_text_route bk (__init__ (Py.Raise Py.ClassifierError)) 1730.5 ∅
    (Py.Ok (PDict [("text", PStr "  ")]))
  = ([], ∅, NoText).
Proof.
  intros bk.
  apply (proj2 (route_rejects_missing_text bk
                  (__init__ (Py.Raise Py.ClassifierError)) 1730.5 ∅
                  (Py.Ok (PDict [("text", PStr "  ")])))).
  reflexivity.
Defined.

Lemma route_cases (bk : Tts.backend) (detector : EmotionDetector) (now : Q)
    (config : gmap string string) (get_json : Py.res pyval) :
  (exists events cause,
     process_text_route bk detector now config get_json
     = (events, config, ServerError cause)) \/
  process_text_route bk detector now config get_json = ([], config, NoText) \/
  (exists events r p,
     process_text_route bk detector now config get_json
     = (events, <[audio_key (audio_id_at now) := Tts.temp_name bk]> config,
        Result (result_payload r p (audio_id_at now)))).
Proof.
  unfold process_text_route.
  destruct (data <- get_json ;; request_text data) as [text | e];
    [| left; eauto].
  destruct (String.eqb text ""); [right; left; reflexivity |].
  destruct (process_text_audio_unfold bk detector text)
    as (r & p & _ & _ & _ & _ & Es).
  destruct (process_text_audio bk detector text) as [events o].
  cbn [snd] in Es. subst o.
  pose proof (generate_audio_result bk text p) as Er.
  destruct (snd (_generate_audio bk text p)) as [path | f].
  - right; right. exists events, r, p.
    destruct (find _ _); inversion Er. reflexivity.
  - left. eauto.
Qed.

(** The route [/process] stores an audio path only when it answers 200: on
    a 400 or 500 answer [app.config] is unchanged, and these three are its
    only status codes. *)
Theorem route_stores_only_on_success (bk : Tts.backend)
    (detector : EmotionDetector) (now : Q) (config : gmap string string)
    (get_json : Py.res pyval) :
  let '(_, config', answer) :=
    process_text_route bk detector now config get_json in
  (status answer = 200%Z /\
   config' = <[audio_key (audio_id_at now) := Tts.temp_name bk]> config) \/
  ((status answer = 400%Z \/ status answer = 500%Z) /\ config' = config).
Proof.
  destruct (route_cases bk detector now config get_json)
    as [(ev & f & ->) | [-> | (ev & r & p & ->)]]; cbn; auto.
Qed.

Lemma audio_key_inj (a b : string) : audio_key a = audio_key b -> a = b.
Proof. unfold audio_key. intros H. now inversion H. Qed.

Lemma get_audio_stored (fs : filesystem) (config : gmap string string)
    (audio_id path : string) :
  config !! audio_key audio_id = Some path ->
  path <> "" -> path_exists fs path = true ->
  send_file_raises fs path = false ->
  get_audio fs config audio_id = AudioFile path.
Proof.
  intros Hc Hn He Hs. unfold get_audio. rewrite Hc, He, Hs.
  destruct (String.eqb path "") eqn:B; [| reflexivity].
  apply eqb_empty in B. contradiction.
Qed.

(** A request answered with 200 can be played back: the answer carries an
    audio id under which the temporary file is stored, and [/audio/<id>]
    with that id serves this file as long as it exists and can be sent. *)
Theorem stored_audio_is_served (bk : Tts.backend)
    (detector : EmotionDetector) (now : Q) (config config' : gmap string string)
    (get_json : Py.res pyval) (events : list Tts.event) (payload : pyval) :
  process_text_route bk detector now config get_json
  = (events, config', Result payload) ->
  subscript payload "audio_id" = Py.Ok (PStr (audio_id_at now)) /\
  config' !! audio_key (audio_id_at now) = Some (Tts.temp_name bk) /\
  forall fs : filesystem,
    Tts.temp_name bk <> "" ->
    path_exists fs (Tts.temp_name bk) = true ->
    send_file_raises fs (Tts.temp_name bk) = false ->
    get_audio fs config' (audio_id_at now) = AudioFile (Tts.temp_name bk).
Proof.
  intros H.
  destruct (route_cases bk detector now config get_json)
    as [(ev & f & E) | [E | (ev & r & p & E)]];
    rewrite E in H; inversion H; subst.
  split; [reflexivity |].
  assert (L : <[audio_key (audio_id_at now) := Tts.temp_name bk]> config
              !! audio_key (audio_id_at now) = Some (Tts.temp_name bk))
    by apply lookup_insert_eq.
  split; [exact L |].
  intros fs Hn He Hs. now apply get_audio_stored.
Qed.

Lemma stored_audio_is_served_witness :
  let bk := Tts.mkBackend (fun _ => false) [] "/tmp/tmpabc.wav" in
  let fs := mkFilesystem (fun _ => true) (fun _ => false) in
  get_audio fs
    (<[audio_key (audio_id_at 1730.5) := "/tmp/tmpabc.wav"]> ∅)
    (audio_id_at 1730.5)
  = AudioFile "/tmp/tmpabc.wav".
Proof.
  intros bk fs.
  refine (proj2 (proj2 (stored_audio_is_served bk
            (__init__ (Py.Raise Py.ClassifierError)) 1730.5 ∅ _
            (Py.Ok (PDict [("text", PStr " good day ")])) _ _ eq_refl))
            fs _ eq_refl eq_refl).
  discriminate.
Defined.

(** [/audio/<id>] serves a file only if its path is stored under that id,
    is not empty and exists; an id that was never stored gets 404, and two
    different ids never share a key of [app.config]. *)
Theorem get_audio_serves_only_stored (fs : filesystem)
    (config : gmap string string) (audio_id : string) :
  (forall path, get_audio fs config audio_id = AudioFile path ->
     config !! audio_key audio_id = Some path /\ path <> "" /\
     path_exists fs path = true) /\
  (config !! audio_key audio_id = None ->
   get_audio fs config audio_id = AudioNotFound) /\
  (forall other, other <> audio_id -> audio_key other <> audio_key audio_id).
Proof.
  unfold get_audio. split; [| split].
  - intros path.
    destruct (config !! audio_key audio_id) as [p |]; [| discriminate].
    destruct (String.eqb p "") eqn:B; cbn [negb andb]; [discriminate |].
    destruct (path_exists fs p) eqn:E; [| discriminate].
    destruct (send_file_raises fs p); [discriminate |].
    intros H. inversion H; subst p. split; [reflexivity |].
    split; [| exact E]. intros ->. discriminate B.
  - intros ->. reflexivity.
  - intros other Hne H. apply Hne. now apply audio_key_inj.
Qed.

Lemma get_audio_serves_only_stored_witness :
  get_audio (mkFilesystem (fun _ => true) (fun _ => false)) ∅ "1730500"
  = AudioNotFound.
Proof.
  apply (proj1 (proj2 (get_audio_serves_only_stored
           (mkFilesystem (fun _ => true) (fun _ => false)) ∅ "1730500"))).
  reflexivity.
Defined.

Lemma of_int_inj (m n : Z) : Str.of_int m = Str.of_int n -> m = n.
Proof.
  unfold Str.of_int. intros H. apply to_int_inj.
  assert (E : NilEmpty.int_of_string (NilEmpty.string_of_int (Z.to_int m))
              = NilEmpty.int_of_string (NilEmpty.string_of_int (Z.to_int n)))
    by now rewrite H.
  rewrite !NilEmpty.isi in E. now inversion E.
Qed.

(** Of two requests answered with 200, the second is stored under the
    audio id of its answer, and the first stays stored under its own id
    exactly when the two ids differ: when both answers carry the same id
    (the ids are the request time in milliseconds) the entry of the first
    is overwritten with the file of the second. *)
Theorem audio_id_collision_overwrites (bk1 bk2 : Tts.backend)
    (det1 det2 : EmotionDetector) (t1 t2 : Q)
    (config0 config1 config2 : gmap string string)
    (req1 req2 : Py.res pyval) (ev1 ev2 : list Tts.event)
    (payload1 payload2 : pyval) :
  process_text_route bk1 det1 t1 config0 req1
  = (ev1, config1, Result payload1) ->
  process_text_route bk2 det2 t2 config1 req2
  = (ev2, config2, Result payload2) ->
  exists id1 id2 : string,
    subscript payload1 "audio_id" = Py.Ok (PStr id1) /\
    subscript payload2 "audio_id" = Py.Ok (PStr id2) /\
    config1 !! audio_key id1 = Some (Tts.temp_name bk1) /\
    config2 !! audio_key id2 = Some (Tts.temp_name bk2) /\
    config2 !! audio_key id1
    = Some (if String.eqb id1 id2
            then Tts.temp_name bk2 else Tts.temp_name bk1).
Proof.
  intros H1 H2.
  destruct (route_cases bk1 det1 t1 config0 req1)
    as [(ev & f & E) | [E | (ev & r & p & E)]];
    rewrite E in H1; inversion H1; subst; clear H1.
  destruct (route_cases bk2 det2 t2
              (<[audio_key (audio_id_at t1) := Tts.temp_name bk1]> config0) req2)
    as [(ev' & f & E') | [E' | (ev' & r' & p' & E')]];
    rewrite E' in H2; inversion H2; subst; clear H2.
  exists (audio_id_at t1), (audio_id_at t2).
  split; [reflexivity |]. split; [reflexivity |].
  split; [apply lookup_insert_eq |]. split; [apply lookup_insert_eq |].
  destruct (String.eqb_spec (audio_id_at t1) (audio_id_at t2)) as [Heq | Hne].
  - rewrite Heq. apply lookup_insert_eq.
  - rewrite lookup_insert_ne.
    + apply lookup_insert_eq.
    + intros K. apply audio_key_inj in K. congruence.
Qed.

Lemma audio_id_collision_overwrites_witness :
  let bk1 := Tts.mkBackend (fun _ => false) [] "/tmp/first.wav" in
  let bk2 := Tts.mkBackend (fun _ => false) [] "/tmp/second.wav" in
  let det := __init__ (Py.Raise Py.ClassifierError) in
  let req := Py.Ok (PDict [("text", PStr "good day")]) in
  let r1 := process_text_route bk1 det 1730.5001 ∅ req in
  let r2 := process_text_route bk2 det 1730.5004 (snd (fst r1)) req in
  snd (fst r1) !! audio_key "1730500" = Some "/tmp/first.wav" /\
  snd (fst r2) !! audio_key "1730500" = Some "/tmp/second.wav".
Proof.
  intros bk1 bk2 det req r1 r2.
  destruct (audio_id_collision_overwrites bk1 bk2 det det 1730.5001 1730.5004
              ∅ (snd (fst r1)) (snd (fst r2)) req req
              (fst (fst r1)) (fst (fst r2))
              (result_payload (mkEmotionResult "happy" 0.7 0.6)
                 (_apply_intensity_scaling
                    (mkVoiceParameters 220 10 0.95 "strong") 0.6) "1730500")
              (result_payload (mkEmotionResult "happy" 0.7 0.6)
                 (_apply_intensity_scaling
                    (mkVoiceParameters 220 10 0.95 "strong") 0.6) "1730500")
              eq_refl eq_refl)
    as (id1 & id2 & E1 & E2 & H1 & _ & H2).
  cbn in E1, E2. inversion E1; subst id1. inversion E2; subst id2.
  split; [exact H1 | exact H2].
Defined.

(** ** The command line loop *)

Lemma cli_step (bk : Tts.backend) (detector : EmotionDetector) (s : string)
    (rest : list cli_input) :
  is_quit s = false ->
  exists events printed,
    cli_interface bk detector (Line s :: rest)
    = ((events ++ fst (fst (cli_interface bk detector rest)))%list,
       (printed :: snd (fst (cli_interface bk detector rest)))%list,
       snd (cli_interface bk detector rest)).
Proof.
  unfold is_quit. intros Hq. cbn [cli_interface]. rewrite Hq.
  destruct (cli_interface bk detector rest) as [[ev out] ended].
  cbn [fst snd].
  destruct (String.eqb (Str.strip s) "").
  - exists [], PleaseEnterText. reflexivity.
  - destruct (process_text_audio bk detector (Str.strip s))
      as [events [[[r p] a] | f]]; eauto.
Qed.

Lemma cli_quit (bk : Tts.backend) (detector : EmotionDetector) (s : string)
    (rest : list cli_input) :
  is_quit s = true ->
  cli_interface bk detector (Line s :: rest) = ([], [Goodbye], true).
Proof. unfold is_quit. intros Hq. cbn [cli_interface]. now rewrite Hq. Qed.

(** The loop ends exactly when the input holds a quit command ("quit",
    "exit" or "q" in any case, with any surrounding white space) or an
    interrupt: a blank line or a failed request never ends it. *)
Theorem cli_ends_only_on_quit (bk : Tts.backend) (detector : EmotionDetector)
    (inputs : list cli_input) :
  snd (cli_interface bk detector inputs)
  = existsb (fun i => match i with
                      | Line s => is_quit s
                      | KeyboardInterrupt => true
                      end) inputs.
Proof.
  induction inputs as [| [s |] rest IH]; cbn [existsb]; [reflexivity | |
    reflexivity].
  destruct (is_quit s) eqn:Hq.
  - now rewrite cli_quit.
  - destruct (cli_step bk detector s rest Hq) as (ev & out & ->).
    cbn [snd orb]. exact IH.
Qed.

(** Nothing after a quit command is read: the inputs that follow it change
    neither what is printed nor the calls made, and the loop has ended. *)
Theorem cli_ignores_input_after_quit (bk : Tts.backend)
    (detector : EmotionDetector) (before after : list cli_input)
    (s : string) :
  is_quit s = true ->
  cli_interface bk detector (before ++ Line s :: after)
  = cli_interface bk detector (before ++ [Line s]) /\
  snd (cli_interface bk detector (before ++ Line s :: after)) = true.
Proof.
  intros Hq.
  induction before as [| [t |] before IH]; cbn [app].
  - rewrite !cli_quit by exact Hq. split; reflexivity.
  - destruct (is_quit t) eqn:Ht.
    + rewrite !cli_quit by exact Ht. split; reflexivity.
    + destruct IH as [IH1 IH2].
      cbn [cli_interface]. unfold is_quit in Ht. rewrite Ht, IH1. split;
        [reflexivity |].
      rewrite <- IH1.
      destruct (cli_interface bk detector (before ++ Line s :: after))
        as [[ev out] ended].
      cbn [snd] in IH2. subst ended.
      destruct (String.eqb (Str.strip t) ""); [reflexivity |].
      destruct (process_text_audio bk detector (Str.strip t))
        as [events [[[r p] a] | f]]; reflexivity.
  - split; reflexivity.
Qed.

Lemma cli_ignores_input_after_quit_witness :
  let bk := Tts.mkBackend (fun _ => false) [] "/tmp/tmpabc.wav" in
  let det := __init__ (Py.Raise Py.ClassifierError) in
  cli_interface bk det [Line ""; Line "  QuIt "; Line "good day"]
  = cli_interface bk det [Line ""; Line "  QuIt "].
Proof.
  intros bk det.
  apply (proj1 (cli_ignores_input_after_quit bk det [Line ""] [Line "good day"]
                  "  QuIt " eq_refl)).
Defined.

(** ** The pipeline end to end, as a property of [process_text] *)

(** Steps 1 to 3 of [process_text] never raise: for every detector state
    and every text they return an emotion result whose intensity is within
    [0.1,1.0] and voice parameters within their bounds (rate in [100,300],
    pitch in [-50,50], volume in [0.1,1.0], emphasis among none, moderate
    and strong). *)
Theorem process_text_returns_in_bounds (detector : EmotionDetector)
    (text : string) :
  exists (r : EmotionResult) (p : VoiceParameters),
    process_text detector text = Py.Ok (r, p) /\
    0.1 <= intensity r <= 1.0 /\ in_bounds p.
Proof.
  destruct (detect_emotion_returns detector text) as (r & Hr & Hi).
  destruct (table_emphasis (emotion r)) as (b & Hb & He).
  exists r, (_apply_intensity_scaling b (intensity r)).
  split; [| split; [exact Hi | apply scaling_clamps; exact He]].
  unfold process_text. rewrite Hr. cbn [Py.bind]. rewrite Hb. reflexivity.
Qed.

Example strip_examples :
  Str.strip (String (ascii_of_nat 9) "  good day  ") = "good day" /\
  Str.strip "   " = "" /\ Str.strip "" = "" /\ Str.strip "a  b" = "a  b".
Proof. repeat split. Qed.
